(** * The TRTSERVER facade of src/core/trtserver.cc

    A shallow embedding of the opaque-handle C API that wraps the inference
    engine (namespace [ni] in the source).  Everything behind the boundary
    is an [Engine]: a record of uninterpreted verbs over an engine state.
    The facade's own objects are modelled as the source has them:

    - a [TRTSERVER_Error*] is an [option TrtServerError], [None] being
      [nullptr];
    - an output parameter [T** out] is a slot [option T] that a function
      receives and hands back, unchanged when the source does not write it;
    - the objects that the facade shares with the engine through
      [std::shared_ptr] (statistics context, timer, request status) live in
      stores of the [World] and are named by their index.  A store only
      grows: destructors are not modelled, so an object that the source
      drops at a return stays in its store as it was left;
    - every call of a verb named by [Verb] and every invocation of the
      caller's completion callback is recorded in the [events] of the
      world. *)

From Stdlib Require Import ZArith Strings.Byte.
From stdpp Require Import gmap strings list fin_maps.

Local Open Scope string_scope.
Local Open Scope list_scope.

(** ** Status model of the engine *)

(** [ni::RequestStatusCode], the codes named by this translation unit.
    The enum itself is declared in request_status.pb.h, which is missing
    from src/ and may hold further codes; no property below relies on
    these eight being all. *)
Inductive RequestStatusCode :=
| SUCCESS | UNKNOWN | INTERNAL | NOT_FOUND | INVALID_ARG
| UNAVAILABLE | UNSUPPORTED | ALREADY_EXISTS.

#[global] Instance RequestStatusCode_eq_dec : EqDecision RequestStatusCode.
Proof. solve_decision. Defined.

(** [ni::Status]: the result of an engine call. *)
Record Status := mkStatus { Code : RequestStatusCode; Message : string }.

(** [ni::RequestStatus]: the protobuf message holding a terminal result. *)
Record RequestStatus := mkRequestStatus { code : RequestStatusCode; msg : string }.

(** ** TrtServerError *)

Record TrtServerError := mkTrtServerError {
  code_ : RequestStatusCode;
  msg_ : string
}.

Module TrtServerError.

(** [TrtServerError::Create(code, msg)]. *)
Definition Create (c : RequestStatusCode) (m : string) : option TrtServerError :=
  if decide (c = SUCCESS) then None else Some (mkTrtServerError c m).

(** [TrtServerError::Create(const ni::RequestStatus&)]. *)
Definition Create_status (status : RequestStatus) : option TrtServerError :=
  Create (code status) (msg status).

Definition Code (e : TrtServerError) : RequestStatusCode := code_ e.
Definition Message (e : TrtServerError) : string := msg_ e.

End TrtServerError.

(** The public [TRTSERVER_Error_Code] enumeration. *)
Inductive TRTSERVER_Error_Code :=
| TRTSERVER_ERROR_UNKNOWN | TRTSERVER_ERROR_INTERNAL | TRTSERVER_ERROR_NOT_FOUND
| TRTSERVER_ERROR_INVALID_ARG | TRTSERVER_ERROR_UNAVAILABLE
| TRTSERVER_ERROR_UNSUPPORTED | TRTSERVER_ERROR_ALREADY_EXISTS.

Definition TRTSERVER_ErrorCode (error : TrtServerError) : TRTSERVER_Error_Code :=
  match TrtServerError.Code error with
  | UNKNOWN => TRTSERVER_ERROR_UNKNOWN
  | INTERNAL => TRTSERVER_ERROR_INTERNAL
  | NOT_FOUND => TRTSERVER_ERROR_NOT_FOUND
  | INVALID_ARG => TRTSERVER_ERROR_INVALID_ARG
  | UNAVAILABLE => TRTSERVER_ERROR_UNAVAILABLE
  | UNSUPPORTED => TRTSERVER_ERROR_UNSUPPORTED
  | ALREADY_EXISTS => TRTSERVER_ERROR_ALREADY_EXISTS
  | _ => TRTSERVER_ERROR_UNKNOWN
  end.

Definition TRTSERVER_ErrorMessage (error : TrtServerError) : string :=
  TrtServerError.Message error.

(** ** TrtServerProtobuf *)

(** [google::protobuf::MessageLite]: what the wrapper needs of a message. *)
Class MessageLite (M : Type) := SerializeToString : M -> list byte.

Record TrtServerProtobuf := mkTrtServerProtobuf { serialized_ : list byte }.

Module TrtServerProtobuf.

(** The constructor flattens the message once. *)
Definition new {M} `{MessageLite M} (m : M) : TrtServerProtobuf :=
  mkTrtServerProtobuf (SerializeToString m).

(** [Serialize] hands out the stored bytes and their number. *)
Definition Serialize (p : TrtServerProtobuf) : list byte * nat :=
  (serialized_ p, length (serialized_ p)).

End TrtServerProtobuf.

(** ** TrtServerOptions *)

Record TrtServerOptions := mkTrtServerOptions { repo_path_ : string }.

Module TrtServerOptions.
Definition new : TrtServerOptions := mkTrtServerOptions "".
Definition ModelRepositoryPath (o : TrtServerOptions) : string := repo_path_ o.
Definition SetModelRepositoryPath (path : string) (o : TrtServerOptions)
  : TrtServerOptions := mkTrtServerOptions path.
End TrtServerOptions.

(** ** Referenced input memory *)

(** A fragment is the pair (base address, byte size) given by the caller;
    the bytes themselves are never copied. *)
Definition Fragment : Type := Z * Z.

(** [ni::SystemMemoryReference]: the fragments of one input. *)
Record SystemMemoryReference := mkSystemMemoryReference { buffer_ : list Fragment }.

Module SystemMemoryReference.

Definition new : SystemMemoryReference := mkSystemMemoryReference [].

(** Modelled from the spec: [ni::SystemMemoryReference::AddBuffer]
    (src/core/provider.h) is missing from src/.  The spec has it append the
    fragment after those already recorded for the input. *)
Definition AddBuffer (base byte_size : Z) (m : SystemMemoryReference)
  : SystemMemoryReference :=
  mkSystemMemoryReference (buffer_ m ++ [(base, byte_size)]).

End SystemMemoryReference.

(** ** TrtServerRequestProvider *)

Section RequestProvider.

(** The protobuf class [ni::InferRequestHeader]. *)
Context {InferRequestHeader : Type}.

Record TrtServerRequestProvider := mkTrtServerRequestProvider {
  model_name_ : string;
  model_version_ : Z;
  request_header_ : InferRequestHeader;
  input_map_ : gmap string SystemMemoryReference
}.

Definition TrtServerRequestProvider_new
    (model_name : string) (model_version : Z) (request_header : InferRequestHeader)
  : TrtServerRequestProvider :=
  mkTrtServerRequestProvider model_name model_version request_header ∅.

Definition set_request_header (h : InferRequestHeader) (p : TrtServerRequestProvider)
  : TrtServerRequestProvider :=
  mkTrtServerRequestProvider (model_name_ p) (model_version_ p) h (input_map_ p).

(** [TrtServerRequestProvider::SetInputData].  [emplace] inserts a null
    entry only when the name is absent, and that entry is at once reset
    to a new, empty [SystemMemoryReference]; an entry already present is
    used as it is.  The fragment is then added to the entry. *)
Definition SetInputData (input_name : string) (base byte_size : Z)
    (p : TrtServerRequestProvider) : TrtServerRequestProvider :=
  let smem :=
    match input_map_ p !! input_name with
    | None => SystemMemoryReference.new
    | Some s => s
    end in
  mkTrtServerRequestProvider (model_name_ p) (model_version_ p) (request_header_ p)
    (<[input_name := SystemMemoryReference.AddBuffer base byte_size smem]> (input_map_ p)).

(** [TRTSERVER_InferenceRequestProviderSetInputData]. *)
Definition TRTSERVER_InferenceRequestProviderSetInputData
    (request_provider : TrtServerRequestProvider)
    (input_name : string) (base byte_size : Z)
  : option TrtServerError * TrtServerRequestProvider :=
  (None, SetInputData input_name base byte_size request_provider).

(** The fragments the engine finds under a name of the input map. *)
Definition fragments (p : TrtServerRequestProvider) (input_name : string)
  : list Fragment :=
  match input_map_ p !! input_name with
  | None => []
  | Some s => buffer_ s
  end.

End RequestProvider.

Arguments TrtServerRequestProvider : clear implicits.

(** ** Objects shared across the boundary *)

(** A [std::shared_ptr] or raw pointer to an object of a store or of the
    engine; also the caller's [userp] and [complete_fn]. *)
Definition ptr : Type := nat.

(** Modelled from the spec: the class [ni::ModelInferStats]
    (src/core/server_status.h) is missing from src/.  The record has the
    two constructor arguments and one field for each setter the facade
    calls; the spec calls [failed_] the "failed" mark of the statistics
    context.  No property below depends on what a new context starts with:
    the facade sets the mark itself. *)
Record ModelInferStats := mkModelInferStats {
  status_manager_ : ptr;
  stats_model_name_ : string;
  requested_model_version_ : Z;
  batch_size_ : Z;
  failed_ : bool;
  metric_reporter_ : option ptr;
  timer_ : option ptr
}.

Module ModelInferStats.

Definition new (status_manager : ptr) (model_name : string) : ModelInferStats :=
  mkModelInferStats status_manager model_name (-1) 0 false None None.

Definition StartRequestTimer (timer : ptr) (s : ModelInferStats) : ModelInferStats :=
  mkModelInferStats (status_manager_ s) (stats_model_name_ s)
    (requested_model_version_ s) (batch_size_ s) (failed_ s)
    (metric_reporter_ s) (Some timer).

Definition SetRequestedVersion (v : Z) (s : ModelInferStats) : ModelInferStats :=
  mkModelInferStats (status_manager_ s) (stats_model_name_ s)
    v (batch_size_ s) (failed_ s) (metric_reporter_ s) (timer_ s).

Definition SetFailed (failed : bool) (s : ModelInferStats) : ModelInferStats :=
  mkModelInferStats (status_manager_ s) (stats_model_name_ s)
    (requested_model_version_ s) (batch_size_ s) failed
    (metric_reporter_ s) (timer_ s).

Definition SetMetricReporter (r : ptr) (s : ModelInferStats) : ModelInferStats :=
  mkModelInferStats (status_manager_ s) (stats_model_name_ s)
    (requested_model_version_ s) (batch_size_ s) (failed_ s)
    (Some r) (timer_ s).

Definition SetBatchSize (n : Z) (s : ModelInferStats) : ModelInferStats :=
  mkModelInferStats (status_manager_ s) (stats_model_name_ s)
    (requested_model_version_ s) n (failed_ s) (metric_reporter_ s) (timer_ s).

End ModelInferStats.

(** ** TrtServerResponse *)

(** Both members are shared pointers: the bundle aliases the terminal-result
    holder and the engine's response provider, it copies neither. *)
Record TrtServerResponse := mkTrtServerResponse {
  request_status_ : ptr;
  response_provider_ : ptr
}.

(** The closure passed to [HandleInfer], by its captures
    [[infer_stats, timer, request_status, infer_response_provider, server,
    complete_fn, userp]]. *)
Record Continuation := mkContinuation {
  k_infer_stats : ptr;
  k_timer : ptr;
  k_request_status : ptr;
  k_infer_response_provider : ptr;
  k_server : ptr;
  k_complete_fn : ptr;
  k_userp : ptr
}.

(** The arguments of one [HandleInfer] call. *)
Record Dispatch := mkDispatch {
  d_request_status : ptr;
  d_backend : ptr;
  d_request_provider : ptr;
  d_response_provider : ptr;
  d_infer_stats : ptr;
  d_OnComplete : Continuation
}.

(** ** What an execution shows *)

(** The boundary verbs of the engine, with the arguments that identify the
    call. *)
Inductive Verb :=
| V_InferenceServer_new (lserver : ptr)
| V_SetModelStorePath (lserver : ptr) (path : string)
| V_Init (lserver : ptr)
| V_InferenceServer_delete (lserver : ptr)
| V_HandleStatus (lserver : ptr) (model_name : string)
| V_GetInferenceBackend (lserver : ptr) (model_name : string) (model_version : Z)
| V_NormalizeRequestHeader (backend : ptr)
| V_InferRequestProvider_Create (model_name : string) (model_version : Z)
| V_DelegatingInferResponseProvider_Create (label_provider : ptr)
| V_HandleInfer (lserver : ptr) (d : Dispatch).

Inductive Event :=
| Call (v : Verb)
| Complete (complete_fn server : ptr) (response : TrtServerResponse) (userp : ptr).

(** The state an API call runs in.  [pending] is used by the dispatch
    model [Async.HandleInfer] only. *)
Record World {E : Type} := mkWorld {
  engine : E;
  infer_stats_store : list ModelInferStats;
  timer_store : list bool;
  request_status_store : list RequestStatus;
  pending : list Dispatch;
  events : list Event
}.
Arguments World : clear implicits.
Arguments mkWorld {E}.

Section WorldOps.

Context {E : Type}.
Implicit Type w : World E.

Definition set_engine (e : E) w : World E :=
  let 'mkWorld _ stats timers holders pend evs := w in
  mkWorld e stats timers holders pend evs.
Definition set_infer_stats_store (stats : list ModelInferStats) w : World E :=
  let 'mkWorld e _ timers holders pend evs := w in
  mkWorld e stats timers holders pend evs.
Definition set_timer_store (timers : list bool) w : World E :=
  let 'mkWorld e stats _ holders pend evs := w in
  mkWorld e stats timers holders pend evs.
Definition set_request_status_store (holders : list RequestStatus) w : World E :=
  let 'mkWorld e stats timers _ pend evs := w in
  mkWorld e stats timers holders pend evs.
Definition set_pending (pend : list Dispatch) w : World E :=
  let 'mkWorld e stats timers holders _ evs := w in
  mkWorld e stats timers holders pend evs.
Definition emit (ev : Event) w : World E :=
  let 'mkWorld e stats timers holders pend evs := w in
  mkWorld e stats timers holders pend (evs ++ [ev]).

(** *** The monad of API calls *)

Definition M (A : Type) : Type := World E -> A * World E.

Definition ret {A} (a : A) : M A := fun w => (a, w).
Definition bind {A B} (c : M A) (k : A -> M B) : M B :=
  fun w => let (a, w') := c w in k a w'.
Definition gets {A} (f : World E -> A) : M A := fun w => (f w, w).
Definition modify (f : World E -> World E) : M unit := fun w => (tt, f w).

(** Calling a verb of the engine: the call is recorded, the engine
    moves to its new state, the result comes back. *)
Definition call {A} (v : Verb) (f : E -> A * E) : M A :=
  fun w => let (a, e') := f (engine w) in (a, set_engine e' (emit (Call v) w)).

(** [new T()]: the record of the call names the object constructed. *)
Definition construct (v : ptr -> Verb) (f : E -> ptr * E) : M ptr :=
  fun w => let (l, e') := f (engine w) in (l, set_engine e' (emit (Call (v l)) w)).

(** [std::make_shared]: the new object is put at the end of its store. *)
Definition make_shared_ModelInferStats (s : ModelInferStats) : M ptr :=
  fun w => (length (infer_stats_store w),
            set_infer_stats_store (infer_stats_store w ++ [s]) w).
Definition make_shared_ScopedTimer : M ptr :=
  fun w => (length (timer_store w), set_timer_store (timer_store w ++ [false]) w).
Definition make_shared_RequestStatus (r : RequestStatus) : M ptr :=
  fun w => (length (request_status_store w),
            set_request_status_store (request_status_store w ++ [r]) w).

(** A method call through a pointer to a statistics context. *)
Definition on_infer_stats (p : ptr) (f : ModelInferStats -> ModelInferStats) : M unit :=
  modify (fun w => set_infer_stats_store (alter f p (infer_stats_store w)) w).

(** [StartRequestTimer(timer.get())]: the timer starts and the context
    remembers it. *)
Definition StartRequestTimer (infer_stats timer : ptr) : M unit :=
  bind (modify (fun w => set_timer_store (<[timer := true]> (timer_store w)) w))
    (fun _ => on_infer_stats infer_stats (ModelInferStats.StartRequestTimer timer)).

(** [timer.reset()] in the continuation: the timer is stopped. *)
Definition timer_reset (timer : ptr) : M unit :=
  modify (fun w => set_timer_store (<[timer := false]> (timer_store w)) w).

(** The body of the lambda given to [HandleInfer]. *)
Definition OnCompleteInfer (k : Continuation) : M unit :=
  bind (on_infer_stats (k_infer_stats k) (ModelInferStats.SetFailed false)) (fun _ =>
  bind (timer_reset (k_timer k)) (fun _ =>
  let response :=
    mkTrtServerResponse (k_request_status k) (k_infer_response_provider k) in
  modify (emit (Complete (k_complete_fn k) (k_server k) response (k_userp k))))).

End WorldOps.

Arguments M : clear implicits.

Notation "'let*' x ':=' c 'in' k" := (bind c (fun x => k))
  (at level 10, x pattern, c at level 100, k at level 200).

(** The macro [RETURN_IF_STATUS_ERROR(S)]; [out] is what the caller's
    objects are left as when the function returns there. *)
Notation "'RETURN_IF_STATUS_ERROR' s 'leaving' out ';;' k" :=
  (if decide (Code s = SUCCESS) then k
   else ret (TrtServerError.Create (Code s) (Message s), out))
  (at level 10, s at level 9, out at level 9, k at level 200).

(** ** The engine behind the boundary *)

(** The verbs the facade calls on [ni], over a state [E] that stands for
    everything the engine owns.  A factory that hands out a shared pointer
    returns the address of the new object next to its [Status]; the facade
    reads it only when the status is [SUCCESS].  [HandleInfer] returns
    nothing and may do anything to the world, running the continuation
    included. *)
Record Engine := mkEngine {
  E : Type;
  InferRequestHeader : Type;
  InferResponseHeader : Type;
  ServerStatus : Type;
  InferResponseHeader_message : MessageLite InferResponseHeader;
  ServerStatus_message : MessageLite ServerStatus;
  (* protobuf *)
  RequestStatus_new : RequestStatus;
  ParseFromArray : list byte -> bool * InferRequestHeader;
  batch_size : InferRequestHeader -> Z;
  (* ni::InferenceServer *)
  InferenceServer_new : E -> ptr * E;
  InferenceServer_delete : ptr -> E -> unit * E;
  SetModelStorePath : ptr -> string -> E -> unit * E;
  Init : ptr -> E -> bool * E;
  StatusManager : ptr -> E -> ptr;
  HandleStatus : ptr -> string -> E -> (RequestStatus * ServerStatus) * E;
  GetInferenceBackend : ptr -> string -> Z -> E -> (Status * ptr) * E;
  HandleInfer : ptr -> Dispatch -> World E -> World E;
  (* ni::InferenceBackend *)
  MetricReporter : ptr -> E -> ptr;
  GetLabelProvider : ptr -> E -> ptr;
  (* free functions and factories *)
  NormalizeRequestHeader :
    ptr -> InferRequestHeader -> E -> (Status * InferRequestHeader) * E;
  InferRequestProvider_Create :
    string -> Z -> InferRequestHeader -> gmap string SystemMemoryReference ->
    E -> (Status * ptr) * E;
  DelegatingInferResponseProvider_Create :
    InferRequestHeader -> ptr -> E -> (Status * ptr) * E;
  (* ni::InferResponseProvider *)
  ResponseHeader : ptr -> E -> InferResponseHeader
}.

#[global] Existing Instance InferResponseHeader_message.
#[global] Existing Instance ServerStatus_message.

(** ** The C API *)

Section API.

Context (ni : Engine).

Local Abbreviation RequestProvider := (TrtServerRequestProvider (InferRequestHeader ni)).
Local Abbreviation API := (M (E ni)).

(** [TRTSERVER_InferenceRequestProviderNew]. *)
Definition TRTSERVER_InferenceRequestProviderNew
    (request_provider : option RequestProvider)
    (model_name : string) (model_version : Z) (request_header_bytes : list byte)
  : API (option TrtServerError * option RequestProvider) :=
  let (parsed, request_header) := ParseFromArray ni request_header_bytes in
  if negb parsed then
    ret (TrtServerError.Create INVALID_ARG "failed to parse InferRequestHeader",
         request_provider)
  else
    ret (None,
         Some (TrtServerRequestProvider_new model_name model_version request_header)).

(** [TrtServerResponse::Status]: [None] inside is the null error, [None]
    outside a bundle whose holder is not in the store. *)
Definition TrtServerResponse_Status (r : TrtServerResponse) (w : World (E ni))
  : option (option TrtServerError) :=
  TrtServerError.Create_status <$> request_status_store w !! request_status_ r.

(** [TrtServerResponse::Header]. *)
Definition TrtServerResponse_Header (r : TrtServerResponse) (w : World (E ni))
  : InferResponseHeader ni :=
  ResponseHeader ni (response_provider_ r) (engine w).

(** [TRTSERVER_InferenceResponseStatus]. *)
Definition TRTSERVER_InferenceResponseStatus (response : TrtServerResponse)
    (w : World (E ni)) : option (option TrtServerError) :=
  TrtServerResponse_Status response w.

(** [TRTSERVER_InferenceResponseHeader]. *)
Definition TRTSERVER_InferenceResponseHeader (response : TrtServerResponse)
    (header : option TrtServerProtobuf) (w : World (E ni))
  : option (option TrtServerError * option TrtServerProtobuf) :=
  match TrtServerResponse_Status response w with
  | None => None
  | Some (Some status) => Some (Some status, header)
  | Some None =>
      let protobuf := TrtServerProtobuf.new (TrtServerResponse_Header response w) in
      Some (None, Some protobuf)
  end.

(** [TRTSERVER_ServerNew]. *)
Definition TRTSERVER_ServerNew (server : option ptr) (options : TrtServerOptions)
  : API (option TrtServerError * option ptr) :=
  let* lserver := construct V_InferenceServer_new (InferenceServer_new ni) in
  let path := TrtServerOptions.ModelRepositoryPath options in
  let* _ := call (V_SetModelStorePath lserver path)
              (SetModelStorePath ni lserver path) in
  let* initialized := call (V_Init lserver) (Init ni lserver) in
  if negb initialized then
    let* _ := call (V_InferenceServer_delete lserver)
                (InferenceServer_delete ni lserver) in
    ret (TrtServerError.Create INVALID_ARG "failed to initialize inference server",
         server)
  else
    ret (None, Some lserver).

(** [TRTSERVER_ServerStatus]: the model name is [std::string()]. *)
Definition TRTSERVER_ServerStatus (server : ptr) (status : option TrtServerProtobuf)
  : API (option TrtServerError * option TrtServerProtobuf) :=
  let lserver := server in
  let* (request_status, server_status) :=
    call (V_HandleStatus lserver "") (HandleStatus ni lserver "") in
  let status :=
    if decide (code request_status = SUCCESS)
    then Some (TrtServerProtobuf.new server_status)
    else status in
  ret (TrtServerError.Create (code request_status) (msg request_status), status).

(** [TRTSERVER_ServerModelStatus]. *)
Definition TRTSERVER_ServerModelStatus (server : ptr)
    (status : option TrtServerProtobuf) (model_name : string)
  : API (option TrtServerError * option TrtServerProtobuf) :=
  let lserver := server in
  let* (request_status, server_status) :=
    call (V_HandleStatus lserver model_name) (HandleStatus ni lserver model_name) in
  let status :=
    if decide (code request_status = SUCCESS)
    then Some (TrtServerProtobuf.new server_status)
    else status in
  ret (TrtServerError.Create (code request_status) (msg request_status), status).

(** [TRTSERVER_ServerInferAsync].  The request header is shared with the
    descriptor, so the descriptor comes back with the header as
    [NormalizeRequestHeader] left it. *)
Definition TRTSERVER_ServerInferAsync (server : ptr)
    (request_provider : RequestProvider) (complete_fn userp : ptr)
  : API (option TrtServerError * RequestProvider) :=
  let lserver := server in
  let lprovider := request_provider in
  let request_header := request_header_ lprovider in

  let* status_manager := gets (fun w => StatusManager ni lserver (engine w)) in
  let* infer_stats :=
    make_shared_ModelInferStats
      (ModelInferStats.new status_manager (model_name_ lprovider)) in
  let* timer := make_shared_ScopedTimer in
  let* _ := StartRequestTimer infer_stats timer in
  let* _ := on_infer_stats infer_stats
              (ModelInferStats.SetRequestedVersion (model_version_ lprovider)) in
  let* _ := on_infer_stats infer_stats (ModelInferStats.SetFailed true) in

  let* (status, backend) :=
    call (V_GetInferenceBackend lserver (model_name_ lprovider) (model_version_ lprovider))
      (GetInferenceBackend ni lserver (model_name_ lprovider) (model_version_ lprovider)) in
  RETURN_IF_STATUS_ERROR status leaving lprovider ;;
  let* metric_reporter := gets (fun w => MetricReporter ni backend (engine w)) in
  let* _ := on_infer_stats infer_stats
              (ModelInferStats.SetMetricReporter metric_reporter) in
  let* _ := on_infer_stats infer_stats
              (ModelInferStats.SetBatchSize (batch_size ni request_header)) in

  let* (status, request_header) :=
    call (V_NormalizeRequestHeader backend)
      (NormalizeRequestHeader ni backend request_header) in
  let lprovider := set_request_header request_header lprovider in
  RETURN_IF_STATUS_ERROR status leaving lprovider ;;

  let* (status, infer_request_provider) :=
    call (V_InferRequestProvider_Create (model_name_ lprovider) (model_version_ lprovider))
      (InferRequestProvider_Create ni (model_name_ lprovider) (model_version_ lprovider)
         request_header (input_map_ lprovider)) in
  RETURN_IF_STATUS_ERROR status leaving lprovider ;;

  let* label_provider := gets (fun w => GetLabelProvider ni backend (engine w)) in
  let* (status, infer_response_provider) :=
    call (V_DelegatingInferResponseProvider_Create label_provider)
      (DelegatingInferResponseProvider_Create ni request_header label_provider) in
  RETURN_IF_STATUS_ERROR status leaving lprovider ;;

  let* request_status := make_shared_RequestStatus (RequestStatus_new ni) in
  let d :=
    mkDispatch request_status backend infer_request_provider
      infer_response_provider infer_stats
      (mkContinuation infer_stats timer request_status infer_response_provider
         server complete_fn userp) in
  let* _ := modify (emit (Call (V_HandleInfer lserver d))) in
  let* _ := modify (HandleInfer ni lserver d) in

  ret (None, lprovider).

End API.

(** ** The dispatch step of the engine *)

Module Async.

(** Modelled from the spec: [InferenceServer::HandleInfer]
    (src/core/server.cc) is missing from src/.  The spec has the dispatch
    hand the work to the engine and return; the engine completes it later,
    on a worker of its own. *)
Definition HandleInfer {E} (lserver : ptr) (d : Dispatch) (w : World E) : World E :=
  set_pending (pending w ++ [d]) w.

(** Modelled from the spec: the engine completes the [i]-th pending
    request.  It does its [work] on its own state, stores the terminal
    result [r] through the [request_status] pointer it was given, forgets
    the request and invokes the continuation. *)
Definition complete {E} (i : nat) (r : RequestStatus) (work : E -> E)
    (w : World E) : World E :=
  match pending w !! i with
  | None => w
  | Some d =>
      let w := set_engine (work (engine w)) w in
      let w := set_request_status_store
                 (<[d_request_status d := r]> (request_status_store w)) w in
      let w := set_pending (delete i (pending w)) w in
      snd (OnCompleteInfer (d_OnComplete d) w)
  end.

(** An engine with this dispatch step in place of its own. *)
Definition engine_of (ni : Engine) : Engine :=
  mkEngine (E ni) (InferRequestHeader ni) (InferResponseHeader ni) (ServerStatus ni)
    (InferResponseHeader_message ni) (ServerStatus_message ni)
    (RequestStatus_new ni) (ParseFromArray ni) (batch_size ni)
    (InferenceServer_new ni) (InferenceServer_delete ni) (SetModelStorePath ni)
    (Init ni) (StatusManager ni) (HandleStatus ni) (GetInferenceBackend ni)
    HandleInfer
    (MetricReporter ni) (GetLabelProvider ni)
    (NormalizeRequestHeader ni) (InferRequestProvider_Create ni)
    (DelegatingInferResponseProvider_Create ni) (ResponseHeader ni).

(** What happens next in a process: the caller schedules another request,
    constructs a server or queries a status, or the engine completes a
    pending request.  The other API functions leave the world as it is. *)
Inductive Action {ni : Engine} :=
| Infers (server : ptr)
    (request_provider : TrtServerRequestProvider (InferRequestHeader ni))
    (complete_fn userp : ptr)
| Creates (server : option ptr) (options : TrtServerOptions)
| Queries (server : ptr) (status : option TrtServerProtobuf) (model_name : string)
| Completes (i : nat) (r : RequestStatus) (work : E ni -> E ni).
Arguments Action : clear implicits.

Definition step {ni} (a : Action ni) (w : World (E ni)) : World (E ni) :=
  match a with
  | Infers server request_provider complete_fn userp =>
      snd (TRTSERVER_ServerInferAsync (engine_of ni) server request_provider
             complete_fn userp w)
  | Creates server options =>
      snd (TRTSERVER_ServerNew (engine_of ni) server options w)
  | Queries server status model_name =>
      snd (TRTSERVER_ServerModelStatus (engine_of ni) server status model_name w)
  | Completes i r work => complete i r work w
  end.

Fixpoint run {ni} (acts : list (Action ni)) (w : World (E ni)) : World (E ni) :=
  match acts with
  | [] => w
  | a :: acts => run acts (step a w)
  end.

End Async.

(** ** Observations on a world *)

(** The holder of the bundle an event delivers, if it is a callback. *)
Definition delivered_holder (ev : Event) : option ptr :=
  match ev with
  | Complete _ _ response _ => Some (request_status_ response)
  | Call _ => None
  end.

(** The invocations of completion callbacks, in order. *)
Definition callbacks (evs : list Event) : list Event :=
  filter (fun ev => is_Some (delivered_holder ev)) evs.

(** The callbacks that delivered a bundle on the holder [h]. *)
Definition callbacks_of (h : ptr) (evs : list Event) : list Event :=
  filter (fun ev => delivered_holder ev = Some h) evs.

(** The "failed" mark of the statistics context at [c]. *)
Definition marked_failed {E} (c : ptr) (w : World E) : option bool :=
  failed_ <$> infer_stats_store w !! c.

(** The pointers of pending requests and of delivered bundles point into
    the stores. *)
Record well_formed {E} (w : World E) : Prop := mk_well_formed {
  wf_pending_holder :
    Forall (fun d => k_request_status (d_OnComplete d) < length (request_status_store w))
      (pending w);
  wf_pending_stats :
    Forall (fun d => k_infer_stats (d_OnComplete d) < length (infer_stats_store w))
      (pending w);
  wf_delivered :
    Forall (fun ev => forall h, delivered_holder ev = Some h ->
                               h < length (request_status_store w))
      (events w)
}.

(** The world of a process that has made no call yet. *)
Definition initial_world {E} (e : E) : World E := mkWorld e [] [] [] [] [].

(** ** A small engine to run the facade on *)

Module Toy.

(** One model, [resnet], served by the backend at address 7.  A request
    header is one byte, the batch size. *)
Definition E : Type := nat.

Definition ParseFromArray (bs : list byte) : bool * Z :=
  match bs with
  | [b] => (true, Z.of_N (Byte.to_N b))
  | _ => (false, 0%Z)
  end.

Definition InferenceServer_new (e : E) : ptr * E := (e, S e).
Definition InferenceServer_delete (l : ptr) (e : E) : unit * E := (tt, e).
Definition SetModelStorePath (l : ptr) (path : string) (e : E) : unit * E := (tt, e).

(** Initialization fails on every server after the first. *)
Definition Init (l : ptr) (e : E) : bool * E := (bool_decide (l = 0), e).

Definition StatusManager (l : ptr) (e : E) : ptr := 1.

Definition HandleStatus (l : ptr) (model_name : string) (e : E)
  : (RequestStatus * list byte) * E :=
  if bool_decide (model_name = "" \/ model_name = "resnet")
  then ((mkRequestStatus SUCCESS "", [x01]%byte), e)
  else ((mkRequestStatus NOT_FOUND "no status available for unknown model",
         []), e).

Definition GetInferenceBackend (l : ptr) (model_name : string) (v : Z) (e : E)
  : (Status * ptr) * E :=
  if bool_decide (model_name = "resnet")
  then ((mkStatus SUCCESS "", 7), e)
  else ((mkStatus NOT_FOUND "no model available", 0), e).

(** This dispatch records that the server is not available and never
    runs the continuation. *)
Definition HandleInfer (l : ptr) (d : Dispatch) (w : World E) : World E :=
  set_request_status_store
    (<[d_request_status d := mkRequestStatus UNAVAILABLE "Server not ready"]>
       (request_status_store w)) w.

Definition MetricReporter (backend : ptr) (e : E) : ptr := 8.
Definition GetLabelProvider (backend : ptr) (e : E) : ptr := 9.

Definition NormalizeRequestHeader (backend : ptr) (h : Z) (e : E)
  : (Status * Z) * E :=
  if bool_decide (0 < h)%Z
  then ((mkStatus SUCCESS "", h), e)
  else ((mkStatus INVALID_ARG "batch size must be positive", h), e).

Definition InferRequestProvider_Create (model_name : string) (v : Z) (h : Z)
    (inputs : gmap string SystemMemoryReference) (e : E) : (Status * ptr) * E :=
  match inputs !! "input0" with
  | Some _ => ((mkStatus SUCCESS "", 20), e)
  | None => ((mkStatus INVALID_ARG "missing input", 0), e)
  end.

Definition DelegatingInferResponseProvider_Create (h : Z) (labels : ptr) (e : E)
  : (Status * ptr) * E :=
  if bool_decide (h <= 64)%Z
  then ((mkStatus SUCCESS "", 30), e)
  else ((mkStatus INTERNAL "cannot allocate outputs", 0), e).

Definition ResponseHeader (provider : ptr) (e : E) : list byte := [x2a]%byte.

Definition ni : Engine :=
  mkEngine E Z (list byte) (list byte) (fun m => m) (fun m => m)
    (mkRequestStatus SUCCESS "") ParseFromArray (fun h => h)
    InferenceServer_new InferenceServer_delete SetModelStorePath
    Init StatusManager HandleStatus GetInferenceBackend
    HandleInfer
    MetricReporter GetLabelProvider
    NormalizeRequestHeader InferRequestProvider_Create
    DelegatingInferResponseProvider_Create ResponseHeader.

(** A request for [resnet] with batch size [batch] and one fragment for
    [input0]. *)
Definition request (model_name : string) (batch : Z)
  : TrtServerRequestProvider Z :=
  SetInputData "input0" 4096 16
    (TrtServerRequestProvider_new model_name (-1) batch).

(** A world in which holder 0 stores a failure and holder 1 a success. *)
Definition two_results : World E :=
  mkWorld 0 [] []
    [mkRequestStatus INTERNAL "inference failed"; mkRequestStatus SUCCESS ""] [] [].

End Toy.

(** ** The steps before the dispatch *)

Section Scheduling.

Context (ni : Engine) (server : ptr)
  (p : TrtServerRequestProvider (InferRequestHeader ni)) (e0 : E ni).

(** How the four fallible steps of one [TRTSERVER_ServerInferAsync] call
    end: on the first status that is not [SUCCESS], or with a backend, a
    request provider and a response provider. *)
Inductive Outcome :=
| Rejected (s : Status)
| Accepted (backend infer_request_provider infer_response_provider : ptr).

(** [scheduling o h vs e]: from the engine state [e0] the steps end as
    [o], having called the verbs [vs], leaving the request header as [h]
    and the engine in state [e]. *)
Inductive scheduling : Outcome -> InferRequestHeader ni -> list Verb -> E ni -> Prop :=
| backend_resolution_fails s backend e1 :
    GetInferenceBackend ni server (model_name_ p) (model_version_ p) e0
      = ((s, backend), e1) ->
    Code s <> SUCCESS ->
    scheduling (Rejected s) (request_header_ p)
      [V_GetInferenceBackend server (model_name_ p) (model_version_ p)] e1
| header_normalization_fails s1 backend e1 s h e2 :
    GetInferenceBackend ni server (model_name_ p) (model_version_ p) e0
      = ((s1, backend), e1) ->
    Code s1 = SUCCESS ->
    NormalizeRequestHeader ni backend (request_header_ p) e1 = ((s, h), e2) ->
    Code s <> SUCCESS ->
    scheduling (Rejected s) h
      [V_GetInferenceBackend server (model_name_ p) (model_version_ p);
       V_NormalizeRequestHeader backend] e2
| request_provider_construction_fails s1 backend e1 s2 h e2 s irp e3 :
    GetInferenceBackend ni server (model_name_ p) (model_version_ p) e0
      = ((s1, backend), e1) ->
    Code s1 = SUCCESS ->
    NormalizeRequestHeader ni backend (request_header_ p) e1 = ((s2, h), e2) ->
    Code s2 = SUCCESS ->
    InferRequestProvider_Create ni (model_name_ p) (model_version_ p) h
      (input_map_ p) e2 = ((s, irp), e3) ->
    Code s <> SUCCESS ->
    scheduling (Rejected s) h
      [V_GetInferenceBackend server (model_name_ p) (model_version_ p);
       V_NormalizeRequestHeader backend;
       V_InferRequestProvider_Create (model_name_ p) (model_version_ p)] e3
| response_provider_construction_fails s1 backend e1 s2 h e2 s3 irp e3 s rp e4 :
    GetInferenceBackend ni server (model_name_ p) (model_version_ p) e0
      = ((s1, backend), e1) ->
    Code s1 = SUCCESS ->
    NormalizeRequestHeader ni backend (request_header_ p) e1 = ((s2, h), e2) ->
    Code s2 = SUCCESS ->
    InferRequestProvider_Create ni (model_name_ p) (model_version_ p) h
      (input_map_ p) e2 = ((s3, irp), e3) ->
    Code s3 = SUCCESS ->
    DelegatingInferResponseProvider_Create ni h (GetLabelProvider ni backend e3) e3
      = ((s, rp), e4) ->
    Code s <> SUCCESS ->
    scheduling (Rejected s) h
      [V_GetInferenceBackend server (model_name_ p) (model_version_ p);
       V_NormalizeRequestHeader backend;
       V_InferRequestProvider_Create (model_name_ p) (model_version_ p);
       V_DelegatingInferResponseProvider_Create (GetLabelProvider ni backend e3)] e4
| all_steps_succeed s1 backend e1 s2 h e2 s3 irp e3 s4 rp e4 :
    GetInferenceBackend ni server (model_name_ p) (model_version_ p) e0
      = ((s1, backend), e1) ->
    Code s1 = SUCCESS ->
    NormalizeRequestHeader ni backend (request_header_ p) e1 = ((s2, h), e2) ->
    Code s2 = SUCCESS ->
    InferRequestProvider_Create ni (model_name_ p) (model_version_ p) h
      (input_map_ p) e2 = ((s3, irp), e3) ->
    Code s3 = SUCCESS ->
    DelegatingInferResponseProvider_Create ni h (GetLabelProvider ni backend e3) e3
      = ((s4, rp), e4) ->
    Code s4 = SUCCESS ->
    scheduling (Accepted backend irp rp) h
      [V_GetInferenceBackend server (model_name_ p) (model_version_ p);
       V_NormalizeRequestHeader backend;
       V_InferRequestProvider_Create (model_name_ p) (model_version_ p);
       V_DelegatingInferResponseProvider_Create (GetLabelProvider ni backend e3)] e4.

End Scheduling.

(** The verbs of the steps before the dispatch. *)
Definition is_step_verb (v : Verb) : Prop :=
  match v with
  | V_GetInferenceBackend _ _ _ | V_NormalizeRequestHeader _
  | V_InferRequestProvider_Create _ _
  | V_DelegatingInferResponseProvider_Create _ => True
  | _ => False
  end.

(** The world after the steps: the statistics context [stats] of the call
    and its started timer are at the end of their stores, the engine is in
    state [e] and the calls of [vs] are recorded. *)
Definition after_steps {E} (w : World E) (e : E) (stats : ModelInferStats)
    (vs : list Verb) : World E :=
  mkWorld e (infer_stats_store w ++ [stats]) (timer_store w ++ [true])
    (request_status_store w) (pending w) (events w ++ map Call vs).

(** The world after an API call that does nothing but call verbs. *)
Definition quiet {E} (w : World E) (e : E) (vs : list Verb) : World E :=
  mkWorld e (infer_stats_store w) (timer_store w) (request_status_store w)
    (pending w) (events w ++ map Call vs).

(** The world in which [HandleInfer] is entered with the dispatch [d]: the
    new holder is at the end of its store and the call is recorded. *)
Definition at_dispatch {E} (w : World E) (holder : RequestStatus)
    (lserver : ptr) (d : Dispatch) : World E :=
  emit (Call (V_HandleInfer lserver d))
    (set_request_status_store (request_status_store w ++ [holder]) w).

(** The world in which a call returns when the steps ended as [Accepted]
    and the dispatch is [Async.HandleInfer]. *)
Definition accepted {E} (w : World E) (e : E) (stats : ModelInferStats)
    (vs : list Verb) (holder : RequestStatus) (lserver : ptr) (d : Dispatch) : World E :=
  Async.HandleInfer lserver d (at_dispatch (after_steps w e stats vs) holder lserver d).

(** The dispatch of the call that [TRTSERVER_ServerInferAsync] makes in
    the world [w] once the steps ended as [Accepted]. *)
Definition dispatch_of {E} (w : World E) (server complete_fn userp : ptr)
    (backend infer_request_provider infer_response_provider : ptr) : Dispatch :=
  let infer_stats := length (infer_stats_store w) in
  let timer := length (timer_store w) in
  let request_status := length (request_status_store w) in
  mkDispatch request_status backend infer_request_provider
    infer_response_provider infer_stats
    (mkContinuation infer_stats timer request_status infer_response_provider
       server complete_fn userp).

(** ** Following one request *)

#[global] Instance Continuation_eq_dec : EqDecision Continuation.
Proof. solve_decision. Defined.

(** The dispatches handed to [HandleInfer], in order. *)
Definition dispatches (evs : list Event) : list Dispatch :=
  omap (fun ev => match ev with Call (V_HandleInfer _ d) => Some d | _ => None end) evs.

(** The callback invocation that running the continuation [k] records. *)
Definition callback_of (k : Continuation) : Event :=
  Complete (k_complete_fn k) (k_server k)
    (mkTrtServerResponse (k_request_status k) (k_infer_response_provider k))
    (k_userp k).

(** The pending requests that carry the continuation [k]. *)
Definition pending_with (k : Continuation) (ds : list Dispatch) : list Dispatch :=
  filter (fun d => d_OnComplete d = k) ds.

(** A world that knows the request of continuation [k]: its holder and
    its statistics context are in the stores and belong to no other pending
    request. *)
Record knows {E} (k : Continuation) (w : World E) : Prop := mk_knows {
  knows_wf : well_formed w;
  knows_holder : k_request_status k < length (request_status_store w);
  knows_stats : k_infer_stats k < length (infer_stats_store w);
  knows_others :
    Forall (fun d => d_OnComplete d = k \/
                     (k_request_status (d_OnComplete d) <> k_request_status k /\
                      k_infer_stats (d_OnComplete d) <> k_infer_stats k))
      (pending w)
}.

(** The request of [k] is with the engine: no callback yet, the context
    still marked failed. *)
Definition in_flight {E} (k : Continuation) (w : World E) : Prop :=
  length (pending_with k (pending w)) = 1 /\
  callbacks_of (k_request_status k) (events w) = [] /\
  marked_failed (k_infer_stats k) w = Some true.

(** The request of [k] is complete: one callback, the mark cleared. *)
Definition completed {E} (k : Continuation) (w : World E) : Prop :=
  pending_with k (pending w) = [] /\
  callbacks_of (k_request_status k) (events w) = [callback_of k] /\
  marked_failed (k_infer_stats k) w = Some false.

(** The request of [k] is followed from its dispatch on. *)
Definition tracked {E} (k : Continuation) (w : World E) : Prop :=
  knows k w /\ (in_flight k w \/ completed k w).

(** The statistics context [c] of a call that returned early: no pending
    request refers to it and it is marked failed. *)
Definition discarded {E} (c : ptr) (w : World E) : Prop :=
  well_formed w /\
  c < length (infer_stats_store w) /\
  Forall (fun d => k_infer_stats (d_OnComplete d) <> c) (pending w) /\
  marked_failed c w = Some true.

(** ** The rest of the C API *)

(** The verbs of the engine that only the functions of this part call.
    [Stop] is called for its effect, its result is dropped.  [HandleHealth]
    and [OutputBufferContents] write through pointers of the caller: they
    receive what the caller's variables hold and return what they hold
    afterwards.  Calls of these verbs are not among the [events]. *)
Record EngineMore {ni : Engine} := mkEngineMore {
  Stop : ptr -> E ni -> E ni;
  HandleHealth : ptr -> string -> bool -> E ni -> (RequestStatus * bool) * E ni;
  OutputBufferContents : ptr -> string -> Fragment -> E ni -> (Status * Fragment) * E ni
}.
Arguments EngineMore : clear implicits.

(** A verb called without a record in the [events]. *)
Definition call_unrecorded {E A} (f : E -> A * E) : M E A :=
  fun w => let (a, e') := f (engine w) in (a, set_engine e' w).

(** [TRTSERVER_ProtobufSerialize]: [base] and [byte_size] are both
    written. *)
Definition TRTSERVER_ProtobufSerialize (protobuf : TrtServerProtobuf)
  : option TrtServerError * (list byte * nat) :=
  (None, TrtServerProtobuf.Serialize protobuf).

(** [TRTSERVER_MemoryAllocatorNew]: the body is empty but for the return. *)
Definition TRTSERVER_MemoryAllocatorNew (allocator : option ptr)
    (alloc_fn delete_fn : ptr) : option TrtServerError * option ptr :=
  (None, allocator).

(** [TRTSERVER_MemoryAllocatorDelete]. *)
Definition TRTSERVER_MemoryAllocatorDelete (allocator : option ptr)
  : option TrtServerError :=
  None.

(** [TRTSERVER_ServerOptionsNew]. *)
Definition TRTSERVER_ServerOptionsNew (options : option TrtServerOptions)
  : option TrtServerError * option TrtServerOptions :=
  (None, Some TrtServerOptions.new).

(** [TRTSERVER_ServerOptionsSetModelRepositoryPath]. *)
Definition TRTSERVER_ServerOptionsSetModelRepositoryPath
    (options : TrtServerOptions) (model_repository_path : string)
  : option TrtServerError * TrtServerOptions :=
  (None, TrtServerOptions.SetModelRepositoryPath model_repository_path options).

(** One [TRTSERVER_InferenceRequestProviderSetInputData] call after the
    other, for the (name, base, size) triples of [calls] in order. *)
Definition set_inputs {H} (calls : list (string * Fragment))
    (p : TrtServerRequestProvider H) : TrtServerRequestProvider H :=
  foldl (fun p c =>
           snd (TRTSERVER_InferenceRequestProviderSetInputData p c.1 c.2.1 c.2.2))
    p calls.

Section MoreAPI.

Context {ni : Engine} (more : EngineMore ni).

Local Abbreviation API := (M (E ni)).

(** [TRTSERVER_ServerDelete]: [server] may be null; [delete] of a null
    pointer does nothing. *)
Definition TRTSERVER_ServerDelete (server : option ptr) : API (option TrtServerError) :=
  match server with
  | Some lserver =>
      let* _ := modify (fun w => set_engine (Stop more lserver (engine w)) w) in
      let* _ := call (V_InferenceServer_delete lserver)
                  (InferenceServer_delete ni lserver) in
      ret None
  | None => ret None
  end.

(** [TRTSERVER_ServerIsLive]. *)
Definition TRTSERVER_ServerIsLive (server : ptr) (live : bool)
  : API (option TrtServerError * bool) :=
  let lserver := server in
  let* (request_status, live) :=
    call_unrecorded (HandleHealth more lserver "live" live) in
  ret (TrtServerError.Create (code request_status) (msg request_status), live).

(** [TRTSERVER_ServerIsReady]. *)
Definition TRTSERVER_ServerIsReady (server : ptr) (ready : bool)
  : API (option TrtServerError * bool) :=
  let lserver := server in
  let* (request_status, ready) :=
    call_unrecorded (HandleHealth more lserver "ready" ready) in
  ret (TrtServerError.Create (code request_status) (msg request_status), ready).

(** [TrtServerResponse::OutputData]. *)
Definition TrtServerResponse_OutputData (r : TrtServerResponse) (name : string)
    (out : Fragment) : API (option TrtServerError * Fragment) :=
  let* (status, out) :=
    call_unrecorded (OutputBufferContents more (response_provider_ r) name out) in
  RETURN_IF_STATUS_ERROR status leaving out ;;
  ret (None, out).

(** [TRTSERVER_InferenceResponseOutputData]. *)
Definition TRTSERVER_InferenceResponseOutputData (response : TrtServerResponse)
    (name : string) (out : Fragment) : API (option TrtServerError * Fragment) :=
  TrtServerResponse_OutputData response name out.

End MoreAPI.

Module ToyMore.

(** The toy server is live and not ready; its response provider has the
    one output [prob], of 40 bytes at address 8192. *)
Definition HandleHealth (l : ptr) (mode : string) (flag : bool) (e : Toy.E)
  : (RequestStatus * bool) * Toy.E :=
  if bool_decide (mode = "live") then ((mkRequestStatus SUCCESS "", true), e)
  else if bool_decide (mode = "ready")
       then ((mkRequestStatus SUCCESS "", false), e)
       else ((mkRequestStatus UNKNOWN "unknown health mode", flag), e).

Definition OutputBufferContents (provider : ptr) (name : string) (out : Fragment)
    (e : Toy.E) : (Status * Fragment) * Toy.E :=
  if bool_decide (name = "prob") then ((mkStatus SUCCESS "", (8192, 40)%Z), e)
  else ((mkStatus UNAVAILABLE "output not found", out), e).

Definition more : EngineMore Toy.ni :=
  mkEngineMore Toy.ni (fun l e => e) HandleHealth OutputBufferContents.

End ToyMore.

(** ** Observations for the rest of the API *)

(** The model store paths given to the engine, in order. *)
Definition store_paths (evs : list Event) : list string :=
  omap (fun ev => match ev with
                  | Call (V_SetModelStorePath _ path) => Some path
                  | _ => None
                  end) evs.

(** The servers deleted, in order. *)
Definition deleted_servers (evs : list Event) : list ptr :=
  omap (fun ev => match ev with
                  | Call (V_InferenceServer_delete l) => Some l
                  | _ => None
                  end) evs.

(** The codes that the switch of [TRTSERVER_ErrorCode] names; any other
    code of [ni::RequestStatusCode] falls to its [default:]. *)
Definition named_by_ErrorCode (c : RequestStatusCode) : Prop :=
  match c with
  | UNKNOWN | INTERNAL | NOT_FOUND | INVALID_ARG
  | UNAVAILABLE | UNSUPPORTED | ALREADY_EXISTS => True
  | _ => False
  end.

(** * Properties *)

(** ** Error translation *)

(** C4: [TrtServerError::Create] yields an error object exactly when the
    code is not [SUCCESS]; the object then carries the code and the message
    it was given, so no error object ever holds [SUCCESS]; on [SUCCESS] the
    result is null whatever the message. *)
Theorem Create_error_iff_not_success (c : RequestStatusCode) (m : string) :
  match TrtServerError.Create c m with
  | Some e =>
      c <> SUCCESS /\ TrtServerError.Code e = c /\ TrtServerError.Message e = m /\
      TrtServerError.Code e <> SUCCESS
  | None => c = SUCCESS
  end.
Proof.
  unfold TrtServerError.Create.
  destruct (decide (c = SUCCESS)) as [Hc | Hc]; simpl; auto.
Qed.

Lemma Create_cases (c : RequestStatusCode) (m : string) :
  match TrtServerError.Create c m with
  | Some e => c <> SUCCESS /\ e = mkTrtServerError c m
  | None => c = SUCCESS
  end.
Proof.
  unfold TrtServerError.Create. by destruct (decide (c = SUCCESS)).
Qed.

Lemma Create_failure (c : RequestStatusCode) (m : string) :
  c <> SUCCESS -> TrtServerError.Create c m = Some (mkTrtServerError c m).
Proof. intros Hc. unfold TrtServerError.Create. by destruct (decide (c = SUCCESS)). Qed.

(** ** Request descriptors *)

(** C5: when the header bytes do not parse, creating a request descriptor
    returns an [INVALID_ARG] error, leaves the caller's slot as it was and
    leaves the world as it was: no verb of the engine has been called. *)
Theorem ProviderNew_rejects_malformed_header (ni : Engine) (bytes : list byte)
    (Hmalformed : fst (ParseFromArray ni bytes) = false)
    (slot : option (TrtServerRequestProvider (InferRequestHeader ni)))
    (model_name : string) (model_version : Z) (w : World (E ni)) :
  TRTSERVER_InferenceRequestProviderNew ni slot model_name model_version bytes w
  = ((Some (mkTrtServerError INVALID_ARG "failed to parse InferRequestHeader"), slot), w).
Proof.
  unfold TRTSERVER_InferenceRequestProviderNew.
  destruct (ParseFromArray ni bytes) as [parsed h]; simpl in Hmalformed.
  subst parsed; reflexivity.
Qed.

Lemma ProviderNew_rejects_malformed_header_witness :
  TRTSERVER_InferenceRequestProviderNew Toy.ni None "resnet" 1 [x01; x02]%byte
    (initial_world 0)
  = ((Some (mkTrtServerError INVALID_ARG "failed to parse InferRequestHeader"), None),
     initial_world 0).
Proof.
  apply (ProviderNew_rejects_malformed_header Toy.ni [x01; x02]%byte).
  reflexivity.
Defined.

Section SetInputDataFacts.

Context {H : Type}.
Implicit Type p : TrtServerRequestProvider H.

Lemma SetInputData_lookup p name b n :
  input_map_ (SetInputData name b n p) !! name
  = Some (mkSystemMemoryReference (fragments p name ++ [(b, n)])).
Proof.
  unfold SetInputData, fragments; simpl.
  rewrite lookup_insert_eq.
  by destruct (input_map_ p !! name).
Qed.

Lemma SetInputData_fragments p name b n :
  fragments (SetInputData name b n p) name = fragments p name ++ [(b, n)].
Proof.
  unfold fragments at 1. by rewrite SetInputData_lookup.
Qed.

(** C6: [setInputData] returns success; afterwards the entry of the name
    holds the fragments it held before (none when the name is new)
    followed by the new fragment; the other entries and the rest of the
    descriptor are as before; and a second call with the same name puts
    its fragment after that of the first. *)
Theorem SetInputData_appends_in_call_order p name b n :
  let r := TRTSERVER_InferenceRequestProviderSetInputData p name b n in
  fst r = None /\
  input_map_ (snd r) !! name
    = Some (mkSystemMemoryReference (fragments p name ++ [(b, n)])) /\
  delete name (input_map_ (snd r)) = delete name (input_map_ p) /\
  (model_name_ (snd r), model_version_ (snd r), request_header_ (snd r))
    = (model_name_ p, model_version_ p, request_header_ p) /\
  forall b' n',
    let r' := TRTSERVER_InferenceRequestProviderSetInputData (snd r) name b' n' in
    fst r' = None /\
    fragments (snd r') name = fragments p name ++ [(b, n); (b', n')].
Proof.
  simpl. split; [done|]. split; [apply SetInputData_lookup|].
  split; [apply delete_insert_eq|]. split; [done|].
  intros b' n'. split; [done|].
  rewrite !SetInputData_fragments, <- app_assoc. done.
Qed.

End SetInputDataFacts.

(** ** Response bundles *)

(** C7: on a bundle whose holder stores the terminal result, [header()]
    goes by [status()].  When [status()] is an error (the terminal result
    is not [SUCCESS]), [header()] returns that very error and leaves the
    payload slot as it was; when [status()] is null, [header()] returns
    null and puts in the slot the wrapper of the response header read from
    the bundle's response provider: a payload whose bytes are that header
    flattened by [SerializeToString]. *)
Theorem ResponseHeader_goes_by_status (ni : Engine) (response : TrtServerResponse)
    (header : option TrtServerProtobuf) (w : World (E ni)) (terminal : RequestStatus)
    (Hheld : request_status_store w !! request_status_ response = Some terminal) :
  match TRTSERVER_InferenceResponseStatus ni response w with
  | Some (Some e) =>
      code terminal <> SUCCESS /\
      e = mkTrtServerError (code terminal) (msg terminal) /\
      TRTSERVER_InferenceResponseHeader ni response header w = Some (Some e, header)
  | Some None =>
      code terminal = SUCCESS /\
      TRTSERVER_InferenceResponseHeader ni response header w
      = Some (None,
              Some (mkTrtServerProtobuf
                      (SerializeToString
                         (ResponseHeader ni (response_provider_ response)
                            (engine w)))))
  | None => False
  end.
Proof.
  unfold TRTSERVER_InferenceResponseHeader, TRTSERVER_InferenceResponseStatus,
    TrtServerResponse_Status, TrtServerResponse_Header.
  rewrite Hheld; simpl.
  unfold TrtServerError.Create_status.
  pose proof (Create_cases (code terminal) (msg terminal)) as Hc.
  destruct (TrtServerError.Create (code terminal) (msg terminal)) as [e|].
  - destruct Hc as (Hne & He). by subst e.
  - done.
Qed.

Lemma ResponseHeader_goes_by_status_witness :
  TRTSERVER_InferenceResponseHeader Toy.ni (mkTrtServerResponse 0 30) None Toy.two_results
  = Some (Some (mkTrtServerError INTERNAL "inference failed"), None) /\
  TRTSERVER_InferenceResponseHeader Toy.ni (mkTrtServerResponse 1 30) None Toy.two_results
  = Some (None, Some (mkTrtServerProtobuf [x2a]%byte)).
Proof.
  split.
  - pose proof (ResponseHeader_goes_by_status Toy.ni (mkTrtServerResponse 0 30) None
                  Toy.two_results (mkRequestStatus INTERNAL "inference failed")
                  eq_refl) as Hw.
    simpl in Hw. destruct Hw as (_ & _ & Hw). exact Hw.
  - pose proof (ResponseHeader_goes_by_status Toy.ni (mkTrtServerResponse 1 30) None
                  Toy.two_results (mkRequestStatus SUCCESS "") eq_refl) as Hw.
    simpl in Hw. destruct Hw as (_ & Hw). exact Hw.
Defined.

(** ** Server construction and status queries *)

Ltac run_api :=
  unfold bind, call, construct, ret, gets, modify; simpl.

(** C8: [TRTSERVER_ServerNew] constructs an engine, sets its model store
    path to the path of the options and initializes it, in this order.
    When initialization fails the engine is deleted, the caller's slot is
    left as it was and an [INVALID_ARG] error is returned; when it succeeds
    the slot receives the engine and null is returned. *)
Theorem ServerNew_initializes_or_destroys (ni : Engine)
    (server : option ptr) (options : TrtServerOptions) (w : World (E ni))
    (lserver : ptr) (e1 e2 e3 : E ni) (u : unit) (initialized : bool)
    (Hnew : InferenceServer_new ni (engine w) = (lserver, e1))
    (Hpath : SetModelStorePath ni lserver (repo_path_ options) e1 = (u, e2))
    (Hinit : Init ni lserver e2 = (initialized, e3)) :
  let (r, w') := TRTSERVER_ServerNew ni server options w in
  let constructed :=
    [Call (V_InferenceServer_new lserver);
     Call (V_SetModelStorePath lserver (repo_path_ options));
     Call (V_Init lserver)] in
  if initialized then
    r = (None, Some lserver) /\
    events w' = events w ++ constructed /\
    engine w' = e3
  else
    r = (Some (mkTrtServerError INVALID_ARG "failed to initialize inference server"),
         server) /\
    events w' = events w ++ constructed ++ [Call (V_InferenceServer_delete lserver)] /\
    engine w' = snd (InferenceServer_delete ni lserver e3).
Proof.
  destruct w as [e0 stats timers holders pend evs]; simpl in *.
  unfold TRTSERVER_ServerNew, TrtServerOptions.ModelRepositoryPath. run_api.
  rewrite Hnew; simpl. rewrite Hpath; simpl. rewrite Hinit; simpl.
  destruct initialized; simpl.
  - by rewrite <- !app_assoc.
  - destruct (InferenceServer_delete ni lserver e3) as [[] e4]; simpl.
    by rewrite <- !app_assoc.
Qed.

Lemma ServerNew_initializes_or_destroys_witness :
  fst (TRTSERVER_ServerNew Toy.ni (Some 5) (TrtServerOptions.new) (initial_world 1))
  = (Some (mkTrtServerError INVALID_ARG "failed to initialize inference server"),
     Some 5).
Proof.
  pose proof (ServerNew_initializes_or_destroys Toy.ni (Some 5) TrtServerOptions.new
                (initial_world 1) 1 2 2 2 tt false eq_refl eq_refl eq_refl) as Hw.
  destruct (TRTSERVER_ServerNew Toy.ni (Some 5) TrtServerOptions.new (initial_world 1))
    as [r w'].
  simpl in Hw. destruct Hw as (Hr & _). exact Hr.
Defined.

(** C9: a status query asks the engine once, for the given model name
    ([TRTSERVER_ServerStatus] asks for the empty name).  When the engine
    reports [SUCCESS] the slot receives the wrapper of the structured status
    (a payload whose bytes are that status flattened by
    [SerializeToString]) and null is returned; otherwise the slot is left
    as it was and the error made of the reported code and message is
    returned. *)
Theorem ServerStatus_payload_only_on_success (ni : Engine)
    (server : ptr) (status : option TrtServerProtobuf) (model_name : string)
    (w : World (E ni)) (request_status : RequestStatus)
    (server_status : ServerStatus ni) (e1 : E ni)
    (Hquery : HandleStatus ni server model_name (engine w)
              = ((request_status, server_status), e1)) :
  TRTSERVER_ServerStatus ni server status w
    = TRTSERVER_ServerModelStatus ni server status "" w /\
  let (r, w') := TRTSERVER_ServerModelStatus ni server status model_name w in
  events w' = events w ++ [Call (V_HandleStatus server model_name)] /\
  engine w' = e1 /\
  if decide (code request_status = SUCCESS) then
    r = (None, Some (mkTrtServerProtobuf (SerializeToString server_status)))
  else
    r = (Some (mkTrtServerError (code request_status) (msg request_status)), status).
Proof.
  split; [reflexivity|].
  destruct w as [e0 stats timers holders pend evs]; simpl in *.
  unfold TRTSERVER_ServerModelStatus. run_api.
  rewrite Hquery; simpl.
  split; [done|]. split; [done|].
  pose proof (Create_cases (code request_status) (msg request_status)) as Hc.
  destruct (decide (code request_status = SUCCESS)) as [Hs | Hs].
  - rewrite Hs. reflexivity.
  - destruct (TrtServerError.Create _ _) as [e|]; [|done].
    destruct Hc as (_ & ->). reflexivity.
Qed.

Lemma ServerStatus_payload_only_on_success_witness :
  fst (TRTSERVER_ServerModelStatus Toy.ni 0 None "alexnet" (initial_world 1))
  = (Some (mkTrtServerError NOT_FOUND "no status available for unknown model"), None) /\
  fst (TRTSERVER_ServerModelStatus Toy.ni 0 None "resnet" (initial_world 1))
  = (None, Some (mkTrtServerProtobuf [x01]%byte)).
Proof.
  split.
  - pose proof (ServerStatus_payload_only_on_success Toy.ni 0 None "alexnet"
                  (initial_world 1)
                  (mkRequestStatus NOT_FOUND "no status available for unknown model")
                  [] 1 eq_refl) as (_ & Hw).
    destruct (TRTSERVER_ServerModelStatus Toy.ni 0 None "alexnet" (initial_world 1))
      as [r w'].
    simpl in Hw. destruct Hw as (_ & _ & Hr). exact Hr.
  - pose proof (ServerStatus_payload_only_on_success Toy.ni 0 None "resnet"
                  (initial_world 1) (mkRequestStatus SUCCESS "")
                  [x01]%byte 1 eq_refl) as (_ & Hw).
    destruct (TRTSERVER_ServerModelStatus Toy.ni 0 None "resnet" (initial_world 1))
      as [r w'].
    simpl in Hw. destruct Hw as (_ & _ & Hr). exact Hr.
Defined.

Lemma ServerNew_quiet (ni : Engine) (server : option ptr) (options : TrtServerOptions)
    (w : World (E ni)) :
  exists e vs, snd (TRTSERVER_ServerNew ni server options w) = quiet w e vs.
Proof.
  destruct w as [e0 stats timers holders pend evs].
  unfold TRTSERVER_ServerNew, TrtServerOptions.ModelRepositoryPath. run_api.
  destruct (InferenceServer_new ni e0) as [l e1]; simpl.
  destruct (SetModelStorePath ni l (repo_path_ options) e1) as [[] e2]; simpl.
  destruct (Init ni l e2) as [[|] e3]; simpl.
  - exists e3, [V_InferenceServer_new l; V_SetModelStorePath l (repo_path_ options);
                V_Init l].
    unfold quiet; simpl. by rewrite <- !app_assoc.
  - destruct (InferenceServer_delete ni l e3) as [[] e4]; simpl.
    exists e4, [V_InferenceServer_new l; V_SetModelStorePath l (repo_path_ options);
                V_Init l; V_InferenceServer_delete l].
    unfold quiet; simpl. by rewrite <- !app_assoc.
Qed.

Lemma ServerModelStatus_quiet (ni : Engine) (server : ptr)
    (status : option TrtServerProtobuf) (model_name : string) (w : World (E ni)) :
  exists e vs,
    snd (TRTSERVER_ServerModelStatus ni server status model_name w) = quiet w e vs.
Proof.
  destruct w as [e0 stats timers holders pend evs].
  unfold TRTSERVER_ServerModelStatus. run_api.
  destruct (HandleStatus ni server model_name e0) as [[rs ss] e1]; simpl.
  by exists e1, [V_HandleStatus server model_name].
Qed.

(** ** Asynchronous inference: what one call does *)

Lemma alter_new {A} (f : A -> A) (l : list A) (x : A) :
  alter f (length l) (l ++ [x]) = l ++ [f x].
Proof.
  rewrite alter_app_r_alt by done. by rewrite Nat.sub_diag.
Qed.

Lemma insert_new {A} (l : list A) (x y : A) :
  <[length l := y]> (l ++ [x]) = l ++ [y].
Proof.
  rewrite insert_app_r_alt by done. by rewrite Nat.sub_diag.
Qed.

Lemma set_request_header_same {H} (p : TrtServerRequestProvider H) :
  set_request_header (request_header_ p) p = p.
Proof. by destruct p. Qed.

Ltac run_infer :=
  unfold TRTSERVER_ServerInferAsync, StartRequestTimer, on_infer_stats,
    make_shared_ModelInferStats, make_shared_ScopedTimer, make_shared_RequestStatus;
  run_api; rewrite ?alter_new, ?insert_new; simpl.

Ltac step :=
  match goal with
  | H : ?call = (_, _) |- context [?call] => rewrite H
  end;
  simpl; rewrite ?alter_new, ?insert_new; simpl;
  match goal with
  | |- context [decide (Code ?s = SUCCESS)] =>
      destruct (decide (Code s = SUCCESS)); [|]; try congruence; simpl
  end.

Ltac close_world :=
  unfold after_steps, at_dispatch, emit, set_engine, set_infer_stats_store,
    set_timer_store, set_request_status_store, set_pending; simpl;
  rewrite <- ?app_assoc, ?set_request_header_same; simpl; reflexivity.

Section InferAsync.

Context (ni : Engine) (server : ptr)
  (p : TrtServerRequestProvider (InferRequestHeader ni)) (complete_fn userp : ptr)
  (w : World (E ni)).

Lemma InferAsync_rejected s h vs e :
  scheduling ni server p (engine w) (Rejected s) h vs e ->
  exists stats,
    TRTSERVER_ServerInferAsync ni server p complete_fn userp w
    = ((Some (mkTrtServerError (Code s) (Message s)), set_request_header h p),
       after_steps w e stats vs) /\
    failed_ stats = true.
Proof.
  intros Hs. destruct w as [e0 stats timers holders pend evs]. simpl in Hs.
  inversion Hs; subst; clear Hs; eexists.
  - split; [run_infer; repeat step; rewrite Create_failure by done; close_world
           | reflexivity].
  - split; [run_infer; repeat step; rewrite Create_failure by done; close_world
           | reflexivity].
  - split; [run_infer; repeat step; rewrite Create_failure by done; close_world
           | reflexivity].
  - split; [run_infer; repeat step; rewrite Create_failure by done; close_world
           | reflexivity].
Qed.

Lemma InferAsync_accepted backend irp rp h vs e :
  scheduling ni server p (engine w) (Accepted backend irp rp) h vs e ->
  let d := dispatch_of w server complete_fn userp backend irp rp in
  exists stats,
    TRTSERVER_ServerInferAsync ni server p complete_fn userp w
    = ((None, set_request_header h p),
       HandleInfer ni server d
         (at_dispatch (after_steps w e stats vs) (RequestStatus_new ni) server d)) /\
    failed_ stats = true.
Proof.
  intros Hs d. subst d. destruct w as [e0 stats timers holders pend evs]. simpl in Hs.
  inversion Hs; subst; clear Hs; eexists.
  split; [run_infer; repeat step; f_equal; f_equal; close_world | reflexivity].
Qed.

End InferAsync.

Lemma scheduling_total (ni : Engine) (server : ptr)
    (p : TrtServerRequestProvider (InferRequestHeader ni)) (e0 : E ni) :
  exists o h vs e, scheduling ni server p e0 o h vs e.
Proof.
  destruct (GetInferenceBackend ni server (model_name_ p) (model_version_ p) e0)
    as [[s1 backend] e1] eqn:H1.
  destruct (decide (Code s1 = SUCCESS)) as [Hs1|Hs1];
    [|by eauto 8 using backend_resolution_fails].
  destruct (NormalizeRequestHeader ni backend (request_header_ p) e1)
    as [[s2 h] e2] eqn:H2.
  destruct (decide (Code s2 = SUCCESS)) as [Hs2|Hs2];
    [|by eauto 8 using header_normalization_fails].
  destruct (InferRequestProvider_Create ni (model_name_ p) (model_version_ p) h
              (input_map_ p) e2) as [[s3 irp] e3] eqn:H3.
  destruct (decide (Code s3 = SUCCESS)) as [Hs3|Hs3];
    [|by eauto 8 using request_provider_construction_fails].
  destruct (DelegatingInferResponseProvider_Create ni h
              (GetLabelProvider ni backend e3) e3) as [[s4 rp] e4] eqn:H4.
  destruct (decide (Code s4 = SUCCESS)) as [Hs4|Hs4].
  - eauto 8 using all_steps_succeed.
  - eauto 8 using response_provider_construction_fails.
Qed.

Lemma callbacks_calls (vs : list Verb) : callbacks (map Call vs) = [].
Proof. induction vs as [|v vs IH]; [done|]. simpl. apply IH. Qed.

Lemma callbacks_of_calls (h : ptr) (vs : list Verb) : callbacks_of h (map Call vs) = [].
Proof. induction vs as [|v vs IH]; [done|]. simpl. apply IH. Qed.

Lemma callbacks_app (evs evs' : list Event) :
  callbacks (evs ++ evs') = callbacks evs ++ callbacks evs'.
Proof. apply filter_app. Qed.

Lemma callbacks_of_app (h : ptr) (evs evs' : list Event) :
  callbacks_of h (evs ++ evs') = callbacks_of h evs ++ callbacks_of h evs'.
Proof. apply filter_app. Qed.

Lemma dispatches_app (evs evs' : list Event) :
  dispatches (evs ++ evs') = dispatches evs ++ dispatches evs'.
Proof. apply omap_app. Qed.

Lemma scheduling_step_verbs ni server p e0 o h vs e :
  scheduling ni server p e0 o h vs e -> Forall is_step_verb vs.
Proof. intros Hs. inversion Hs; subst; repeat constructor. Qed.

Lemma dispatches_step_verbs (vs : list Verb) :
  Forall is_step_verb vs -> dispatches (map Call vs) = [].
Proof.
  induction 1 as [|v vs Hv _ IH]; [done|].
  destruct v; simpl in *; try done; apply IH.
Qed.

(** C1: when backend resolution, header normalization, request-provider
    construction or response-provider construction reports a status [s]
    that is not [SUCCESS], [TRTSERVER_ServerInferAsync] returns the error
    made of the code and the message of [s]; it has called the verbs up to
    the failing one and nothing after it, so [HandleInfer] has not been
    given a continuation, no callback has been invoked and no request of
    this call is pending. *)
Theorem InferAsync_scheduling_failure (ni : Engine) (server : ptr)
    (p : TrtServerRequestProvider (InferRequestHeader ni)) (complete_fn userp : ptr)
    (w : World (E ni)) (s : Status) (h : InferRequestHeader ni) (vs : list Verb)
    (e : E ni)
    (Hfails : scheduling ni server p (engine w) (Rejected s) h vs e) :
  let (r, w') := TRTSERVER_ServerInferAsync ni server p complete_fn userp w in
  fst r = Some (mkTrtServerError (Code s) (Message s)) /\
  TrtServerError.Create (Code s) (Message s) = fst r /\
  events w' = events w ++ map Call vs /\
  Forall is_step_verb vs /\
  dispatches (events w') = dispatches (events w) /\
  callbacks (events w') = callbacks (events w) /\
  pending w' = pending w.
Proof.
  destruct (InferAsync_rejected ni server p complete_fn userp w s h vs e Hfails)
    as (stats & -> & _).
  pose proof (scheduling_step_verbs _ _ _ _ _ _ _ _ Hfails) as Hvs.
  assert (Code s <> SUCCESS) as Hne by (inversion Hfails; done).
  simpl. repeat split; try done.
  - by apply Create_failure.
  - by rewrite dispatches_app, dispatches_step_verbs, app_nil_r.
  - by rewrite callbacks_app, callbacks_calls, app_nil_r.
Qed.

Lemma InferAsync_scheduling_failure_witness :
  fst (fst (TRTSERVER_ServerInferAsync Toy.ni 0 (Toy.request "alexnet" 4) 100 200
              (initial_world 1)))
  = Some (mkTrtServerError NOT_FOUND "no model available").
Proof.
  pose proof (InferAsync_scheduling_failure Toy.ni 0 (Toy.request "alexnet" 4) 100 200
                (initial_world 1) (mkStatus NOT_FOUND "no model available") 4%Z
                [V_GetInferenceBackend 0 "alexnet" (-1)] 1) as Hw.
  destruct (TRTSERVER_ServerInferAsync Toy.ni 0 (Toy.request "alexnet" 4) 100 200
              (initial_world 1)) as [r w'].
  apply Hw.
  apply (backend_resolution_fails Toy.ni 0 (Toy.request "alexnet" 4) 1
           (mkStatus NOT_FOUND "no model available") 0 1); [reflexivity | discriminate].
Defined.

(** C10: when the four steps before the dispatch all succeed,
    [TRTSERVER_ServerInferAsync] returns null, whatever [HandleInfer] is
    and does: the world it returns in is the one [HandleInfer] left, and
    nothing of it is looked at. *)
Theorem InferAsync_success_ignores_dispatch (ni : Engine) (server : ptr)
    (p : TrtServerRequestProvider (InferRequestHeader ni)) (complete_fn userp : ptr)
    (w : World (E ni)) (backend irp rp : ptr) (h : InferRequestHeader ni)
    (vs : list Verb) (e : E ni)
    (Hsucceed : scheduling ni server p (engine w) (Accepted backend irp rp) h vs e) :
  let (r, w') := TRTSERVER_ServerInferAsync ni server p complete_fn userp w in
  r = (None, set_request_header h p) /\
  exists w_d,
    w' = HandleInfer ni server
           (dispatch_of w server complete_fn userp backend irp rp) w_d /\
    events w_d
    = events w ++ map Call vs ++
      [Call (V_HandleInfer server
               (dispatch_of w server complete_fn userp backend irp rp))].
Proof.
  destruct (InferAsync_accepted ni server p complete_fn userp w _ _ _ _ _ _ Hsucceed)
    as (stats & -> & _).
  split; [done|]. eexists; split; [reflexivity|].
  simpl. by rewrite <- app_assoc.
Qed.

Lemma Toy_request_accepted :
  scheduling Toy.ni 0 (Toy.request "resnet" 4) 1 (Accepted 7 20 30) 4%Z
    [V_GetInferenceBackend 0 "resnet" (-1); V_NormalizeRequestHeader 7;
     V_InferRequestProvider_Create "resnet" (-1);
     V_DelegatingInferResponseProvider_Create 9] 1.
Proof.
  apply (all_steps_succeed Toy.ni 0 (Toy.request "resnet" 4) 1
           (mkStatus SUCCESS "") 7 1 (mkStatus SUCCESS "") 4%Z 1
           (mkStatus SUCCESS "") 20 1 (mkStatus SUCCESS "") 30 1);
    reflexivity.
Defined.

(** The dispatch of [Toy.ni] stores [UNAVAILABLE] in the holder and drops
    the continuation; the call returns null all the same. *)
Lemma InferAsync_success_ignores_dispatch_witness :
  let (r, w') := TRTSERVER_ServerInferAsync Toy.ni 0 (Toy.request "resnet" 4) 100 200
                   (initial_world 1) in
  fst r = None /\
  request_status_store w' = [mkRequestStatus UNAVAILABLE "Server not ready"] /\
  callbacks (events w') = [].
Proof.
  pose proof (InferAsync_success_ignores_dispatch Toy.ni 0 (Toy.request "resnet" 4)
                100 200 (initial_world 1) 7 20 30 4%Z _ 1 Toy_request_accepted) as Hw.
  destruct (TRTSERVER_ServerInferAsync Toy.ni 0 (Toy.request "resnet" 4) 100 200
              (initial_world 1)) as [r w'] eqn:Hrun.
  destruct Hw as (Hr & _).
  split; [by rewrite Hr|].
  vm_compute in Hrun. injection Hrun as _ <-. split; reflexivity.
Defined.

(** ** Asynchronous inference: what a process does *)

Section Steps.

Context {ni : Engine}.
Implicit Type w : World (E ni).
Implicit Type k : Continuation.

Lemma complete_absent i r work w :
  pending w !! i = None -> Async.complete i r work w = w.
Proof. unfold Async.complete. by intros ->. Qed.

Lemma complete_present i r work w d :
  pending w !! i = Some d ->
  Async.complete i r work w
  = mkWorld (work (engine w))
      (alter (ModelInferStats.SetFailed false) (k_infer_stats (d_OnComplete d))
         (infer_stats_store w))
      (<[k_timer (d_OnComplete d) := false]> (timer_store w))
      (<[d_request_status d := r]> (request_status_store w))
      (delete i (pending w))
      (events w ++ [callback_of (d_OnComplete d)]).
Proof.
  intros Hi. unfold Async.complete. rewrite Hi.
  destruct w as [e0 stats timers holders pend evs]. reflexivity.
Qed.

Lemma infers_effect server p complete_fn userp w :
  let r := TRTSERVER_ServerInferAsync (Async.engine_of ni) server p
             complete_fn userp w in
  exists e stats vs,
    failed_ stats = true /\ Forall is_step_verb vs /\
    ((is_Some (fst (fst r)) /\ snd r = after_steps w e stats vs) \/
     (exists backend irp rp,
        let d := dispatch_of w server complete_fn userp backend irp rp in
        fst (fst r) = None /\
        snd r = accepted w e stats vs (RequestStatus_new ni) server d)).
Proof.
  destruct (scheduling_total (Async.engine_of ni) server p (engine w))
    as (o & h & vs & e & Hs).
  pose proof (scheduling_step_verbs _ _ _ _ _ _ _ _ Hs) as Hvs.
  destruct o as [s | backend irp rp].
  - destruct (InferAsync_rejected _ server p complete_fn userp w s h vs e Hs)
      as (stats & Hr & Hf).
    exists e, stats, vs. simpl. rewrite Hr. simpl. eauto.
  - destruct (InferAsync_accepted _ server p complete_fn userp w _ _ _ h vs e Hs)
      as (stats & Hr & Hf).
    exists e, stats, vs. simpl. rewrite Hr. simpl.
    split; [done|]. split; [done|]. right. by exists backend, irp, rp.
Qed.

End Steps.

Lemma Forall_calls_deliver_nothing (vs : list Verb) (n : nat) :
  Forall (fun ev => forall h, delivered_holder ev = Some h -> h < n) (map Call vs).
Proof. apply Forall_forall. intros ev [v [-> _]]%list_elem_of_fmap h. discriminate. Qed.

Lemma filter_delete_length {A} (P : A -> Prop) `{forall x, Decision (P x)}
    (l : list A) (i : nat) (x : A) :
  l !! i = Some x ->
  length (filter P l)
  = length (filter P (delete i l)) + (if decide (P x) then 1 else 0).
Proof.
  intros Hx.
  rewrite <- (take_drop_middle l i x Hx) at 1.
  rewrite delete_take_drop, !filter_app, filter_cons, !length_app.
  destruct (decide (P x)); simpl; lia.
Qed.

Section Preservation.

Context {ni : Engine}.
Implicit Type w : World (E ni).
Implicit Type k : Continuation.

Lemma wf_after_steps w e stats vs :
  well_formed w -> well_formed (after_steps w e stats vs).
Proof.
  intros [Hh Hs Hd]. split; simpl.
  - done.
  - eapply Forall_impl; [exact Hs|]. intros d; simpl. rewrite length_app; simpl. lia.
  - apply Forall_app. split; [done|]. apply Forall_calls_deliver_nothing.
Qed.

Lemma wf_quiet w e vs : well_formed w -> well_formed (quiet w e vs).
Proof.
  intros [Hh Hs Hd]. split; simpl; try done.
  apply Forall_app. split; [done|]. apply Forall_calls_deliver_nothing.
Qed.

Lemma wf_accepted w e stats vs holder server complete_fn userp backend irp rp :
  well_formed w ->
  well_formed (accepted w e stats vs holder server
                 (dispatch_of w server complete_fn userp backend irp rp)).
Proof.
  intros [Hh Hs Hd]. split; simpl.
  - apply Forall_app. split.
    + eapply Forall_impl; [exact Hh|]. intros d; simpl. rewrite length_app; simpl. lia.
    + apply Forall_singleton; simpl. rewrite length_app; simpl. lia.
  - apply Forall_app. split.
    + eapply Forall_impl; [exact Hs|]. intros d; simpl. rewrite length_app; simpl. lia.
    + apply Forall_singleton; simpl. rewrite length_app; simpl. lia.
  - apply Forall_app. split; [apply Forall_app; split|].
    + eapply Forall_impl; [exact Hd|]. intros d Hlt h Hh'; simpl.
      rewrite length_app; simpl. specialize (Hlt h Hh'). lia.
    + apply Forall_calls_deliver_nothing.
    + apply Forall_singleton. intros h; discriminate.
Qed.

Lemma wf_complete w i r work d :
  pending w !! i = Some d ->
  well_formed w -> well_formed (Async.complete i r work w).
Proof.
  intros Hi [Hh Hs Hd]. rewrite (complete_present _ _ _ _ _ Hi). split; simpl.
  - rewrite length_insert. by apply Forall_delete.
  - rewrite length_alter. by apply Forall_delete.
  - rewrite length_insert. apply Forall_app. split; [done|].
    apply Forall_singleton. intros h [= <-].
    eapply (Forall_lookup_1 _ _ _ _ Hh Hi).
Qed.

Lemma wf_step (a : Async.Action ni) w :
  well_formed w -> well_formed (Async.step a w).
Proof.
  intros Hwf. destruct a as [server p fn userp | server options | server status model_name
                 | i r work]; unfold Async.step.
  - destruct (infers_effect server p fn userp w)
      as (e & stats & vs & _ & _ & [[_ Heq] | (b & irp & rp & _ & Heq)]);
      rewrite Heq.
    + by apply wf_after_steps.
    + by apply wf_accepted.
  - destruct (ServerNew_quiet (Async.engine_of ni) server options w) as (e & vs & ->).
    by apply wf_quiet.
  - destruct (ServerModelStatus_quiet (Async.engine_of ni) server status model_name w)
      as (e & vs & ->).
    by apply wf_quiet.
  - destruct (pending w !! i) as [d|] eqn:Hi.
    + by eapply wf_complete.
    + by rewrite complete_absent.
Qed.

End Preservation.

Lemma callbacks_of_callback (h : ptr) (k : Continuation) :
  callbacks_of h [callback_of k]
  = if decide (k_request_status k = h) then [callback_of k] else [].
Proof.
  unfold callbacks_of. rewrite filter_cons, filter_nil. simpl.
  destruct (decide (k_request_status k = h)) as [->|Hne].
  - by rewrite decide_True.
  - rewrite decide_False; [done|]. intros [= ?]. done.
Qed.

Lemma marked_failed_cleared (c : ptr) (stats : list ModelInferStats) :
  c < length stats ->
  failed_ <$> alter (ModelInferStats.SetFailed false) c stats !! c = Some false.
Proof.
  intros [s Hs]%lookup_lt_is_Some_2.
  rewrite list_lookup_alter_eq, Hs. reflexivity.
Qed.

Section Tracking.

Context {ni : Engine}.
Implicit Type w : World (E ni).
Implicit Type k : Continuation.

Lemma tracked_after_steps k w e stats vs :
  tracked k w -> tracked k (after_steps w e stats vs).
Proof.
  intros [[Hwf Hh Hs Ho] Hst]. split.
  - split; simpl; try done.
    + by apply wf_after_steps.
    + rewrite length_app; simpl. lia.
  - unfold in_flight, completed, marked_failed in *. simpl.
    rewrite callbacks_of_app, callbacks_of_calls, app_nil_r.
    rewrite lookup_app_l by done. exact Hst.
Qed.

Lemma tracked_quiet k w e vs : tracked k w -> tracked k (quiet w e vs).
Proof.
  intros [[Hwf Hh Hs Ho] Hst]. split.
  - split; simpl; try done. by apply wf_quiet.
  - unfold in_flight, completed, marked_failed in *. simpl.
    by rewrite callbacks_of_app, callbacks_of_calls, app_nil_r.
Qed.

Lemma tracked_accepted k w e stats vs holder server complete_fn userp backend irp rp :
  tracked k w ->
  tracked k (accepted w e stats vs holder server
               (dispatch_of w server complete_fn userp backend irp rp)).
Proof.
  intros [[Hwf Hh Hs Ho] Hst].
  set (d := dispatch_of w server complete_fn userp backend irp rp).
  assert (k_request_status (d_OnComplete d) <> k_request_status k /\
          k_infer_stats (d_OnComplete d) <> k_infer_stats k) as Hd
    by (simpl; lia).
  split.
  - split; simpl.
    + by apply wf_accepted.
    + rewrite length_app; simpl. lia.
    + rewrite length_app; simpl. lia.
    + apply Forall_app. split; [done|]. apply Forall_singleton. by right.
  - unfold in_flight, completed, marked_failed, pending_with in *. simpl.
    rewrite filter_app, filter_cons, filter_nil, decide_False, app_nil_r
      by (intros Hk; rewrite Hk in Hd; tauto).
    rewrite !callbacks_of_app, callbacks_of_calls, !app_nil_r.
    rewrite lookup_app_l by done. exact Hst.
Qed.

Lemma tracked_complete k w i r work d :
  pending w !! i = Some d ->
  tracked k w -> tracked k (Async.complete i r work w).
Proof.
  intros Hi [[Hwf Hh Hs Ho] Hst].
  pose proof (wf_complete w i r work d Hi Hwf) as Hwf'.
  pose proof (filter_delete_length (fun d => d_OnComplete d = k) _ _ _ Hi) as Hlen.
  rewrite (complete_present _ _ _ _ _ Hi) in *.
  split.
  - split; simpl; try done.
    + by rewrite length_insert.
    + by rewrite length_alter.
    + by apply Forall_delete.
  - unfold in_flight, completed, marked_failed, pending_with in *. simpl.
    rewrite callbacks_of_app, callbacks_of_callback.
    destruct (decide (d_OnComplete d = k)) as [Hk | Hk].
    + (* the request of [k] is the one completed *)
      rewrite Hk, decide_True by done.
      destruct Hst as [(Hp & Hc & Hm) | (Hp & _)]; [|rewrite Hp in Hlen; simpl in Hlen; lia].
      right. rewrite Hc. repeat split.
      * apply length_zero_iff_nil. lia.
      * by apply marked_failed_cleared.
    + (* another request is completed *)
      pose proof (Forall_lookup_1 _ _ _ _ Ho Hi) as [? | [Hne Hne']]; [done|].
      rewrite decide_False, app_nil_r by done.
      rewrite list_lookup_alter_ne by done.
      rewrite Nat.add_0_r in Hlen. rewrite <- Hlen.
      destruct Hst as [(Hp & Hc & Hm) | (Hp & Hc & Hm)]; [left | right]; repeat split; try done.
      apply length_zero_iff_nil. rewrite <- Hlen. by rewrite Hp.
Qed.

Lemma tracked_step k (a : Async.Action ni) w :
  tracked k w -> tracked k (Async.step a w).
Proof.
  intros Ht. destruct a as [server p fn userp | server options | server status model_name
                 | i r work]; unfold Async.step.
  - destruct (infers_effect server p fn userp w)
      as (e & stats & vs & _ & _ & [[_ Heq] | (b & irp & rp & _ & Heq)]);
      rewrite Heq.
    + by apply tracked_after_steps.
    + by apply tracked_accepted.
  - destruct (ServerNew_quiet (Async.engine_of ni) server options w) as (e & vs & ->).
    by apply tracked_quiet.
  - destruct (ServerModelStatus_quiet (Async.engine_of ni) server status model_name w)
      as (e & vs & ->).
    by apply tracked_quiet.
  - destruct (pending w !! i) as [d|] eqn:Hi.
    + by eapply tracked_complete.
    + by rewrite complete_absent.
Qed.

Lemma wf_run (acts : list (Async.Action ni)) w :
  well_formed w -> well_formed (Async.run acts w).
Proof.
  revert w. induction acts as [|a acts IH]; intros w Hwf; simpl; [done|].
  apply IH. by apply wf_step.
Qed.

Lemma tracked_run k (acts : list (Async.Action ni)) w :
  tracked k w -> tracked k (Async.run acts w).
Proof.
  revert w. induction acts as [|a acts IH]; intros w Ht; simpl; [done|].
  apply IH. by apply tracked_step.
Qed.

End Tracking.

Lemma filter_none {A} (P : A -> Prop) `{forall x, Decision (P x)} (l : list A) :
  Forall (fun x => ~ P x) l -> filter P l = [].
Proof.
  induction 1 as [|x l Hx _ IH]; [done|].
  by rewrite filter_cons, decide_False.
Qed.

Section Discarded.

Context {ni : Engine}.
Implicit Type w : World (E ni).

Lemma discarded_after_steps c w e stats vs :
  discarded c w -> discarded c (after_steps w e stats vs).
Proof.
  intros (Hwf & Hc & Hp & Hm). split_and!; simpl; try done.
  - by apply wf_after_steps.
  - rewrite length_app; simpl. lia.
  - unfold marked_failed in *; simpl. by rewrite lookup_app_l.
Qed.

Lemma discarded_quiet c w e vs : discarded c w -> discarded c (quiet w e vs).
Proof.
  intros (Hwf & Hc & Hp & Hm). split_and!; simpl; try done. by apply wf_quiet.
Qed.

Lemma discarded_accepted c w e stats vs holder server complete_fn userp backend irp rp :
  discarded c w ->
  discarded c (accepted w e stats vs holder server
                 (dispatch_of w server complete_fn userp backend irp rp)).
Proof.
  intros (Hwf & Hc & Hp & Hm). split_and!; simpl.
  - by apply wf_accepted.
  - rewrite length_app; simpl. lia.
  - apply Forall_app. split; [done|]. apply Forall_singleton; simpl. lia.
  - unfold marked_failed in *; simpl. by rewrite lookup_app_l.
Qed.

Lemma discarded_complete c w i r work d :
  pending w !! i = Some d ->
  discarded c w -> discarded c (Async.complete i r work w).
Proof.
  intros Hi (Hwf & Hc & Hp & Hm).
  pose proof (wf_complete w i r work d Hi Hwf) as Hwf'.
  rewrite (complete_present _ _ _ _ _ Hi) in *.
  split_and!; simpl; try done.
  - by rewrite length_alter.
  - by apply Forall_delete.
  - unfold marked_failed in *; simpl.
    rewrite list_lookup_alter_ne; [done|].
    apply (Forall_lookup_1 _ _ _ _ Hp Hi).
Qed.

Lemma discarded_step c (a : Async.Action ni) w :
  discarded c w -> discarded c (Async.step a w).
Proof.
  intros Hd. destruct a as [server p fn userp | server options | server status model_name
                 | i r work]; unfold Async.step.
  - destruct (infers_effect server p fn userp w)
      as (e & stats & vs & _ & _ & [[_ Heq] | (b & irp & rp & _ & Heq)]);
      rewrite Heq.
    + by apply discarded_after_steps.
    + by apply discarded_accepted.
  - destruct (ServerNew_quiet (Async.engine_of ni) server options w) as (e & vs & ->).
    by apply discarded_quiet.
  - destruct (ServerModelStatus_quiet (Async.engine_of ni) server status model_name w)
      as (e & vs & ->).
    by apply discarded_quiet.
  - destruct (pending w !! i) as [d|] eqn:Hi.
    + by eapply discarded_complete.
    + by rewrite complete_absent.
Qed.

Lemma discarded_run c (acts : list (Async.Action ni)) w :
  discarded c w -> discarded c (Async.run acts w).
Proof.
  revert w. induction acts as [|a acts IH]; intros w Hd; simpl; [done|].
  apply IH. by apply discarded_step.
Qed.

(** The context of a call that returns early is discarded. *)
Lemma rejected_discarded w e stats vs :
  well_formed w -> failed_ stats = true ->
  discarded (length (infer_stats_store w)) (after_steps w e stats vs).
Proof.
  intros Hwf Hf. split_and!; simpl.
  - by apply wf_after_steps.
  - rewrite length_app; simpl. lia.
  - eapply Forall_impl; [apply (wf_pending_stats _ Hwf)|]. intros d; simpl. lia.
  - unfold marked_failed; simpl. by rewrite list_lookup_middle, <- Hf.
Qed.

(** The request of a call that is accepted is in flight. *)
Lemma accepted_in_flight w e stats vs holder server complete_fn userp backend irp rp :
  well_formed w -> failed_ stats = true ->
  let d := dispatch_of w server complete_fn userp backend irp rp in
  tracked (d_OnComplete d) (accepted w e stats vs holder server d) /\
  in_flight (d_OnComplete d) (accepted w e stats vs holder server d).
Proof.
  intros Hwf Hf d.
  assert (Forall (fun d' => k_request_status (d_OnComplete d')
                            <> k_request_status (d_OnComplete d) /\
                            k_infer_stats (d_OnComplete d')
                            <> k_infer_stats (d_OnComplete d)) (pending w)) as Hold.
  { apply Forall_forall. intros d' Hd'.
    pose proof (proj1 (Forall_forall _ _) (wf_pending_holder _ Hwf) d' Hd').
    pose proof (proj1 (Forall_forall _ _) (wf_pending_stats _ Hwf) d' Hd').
    simpl in *. lia. }
  assert (in_flight (d_OnComplete d) (accepted w e stats vs holder server d)) as Hfl.
  { unfold in_flight, pending_with, marked_failed; simpl. split_and!.
    - rewrite filter_app, filter_cons, filter_nil, decide_True by done.
      rewrite filter_none; [done|].
      eapply Forall_impl; [exact Hold|]. intros d' [Hne _] Heq; simpl in *.
      by rewrite Heq in Hne.
    - rewrite !callbacks_of_app, callbacks_of_calls. simpl.
      rewrite !app_nil_r. apply filter_none.
      eapply Forall_impl; [apply (wf_delivered _ Hwf)|].
      intros ev Hev Heq; simpl in *. specialize (Hev _ Heq). lia.
    - by rewrite list_lookup_middle, <- Hf. }
  split; [|exact Hfl]. split; [|by left]. split; simpl.
  - by apply wf_accepted.
  - rewrite length_app; simpl. lia.
  - rewrite length_app; simpl. lia.
  - apply Forall_app. split.
    + eapply Forall_impl; [exact Hold|]. intros d' Hd'. by right.
    + apply Forall_singleton. by left.
Qed.

End Discarded.

(** ** Asynchronous inference: the completion callback *)

Lemma initial_world_well_formed {E} (e : E) : well_formed (initial_world e).
Proof. split; simpl; constructor. Defined.

(** C2: let a call of [TRTSERVER_ServerInferAsync] return null in a
    well-formed world, the engine dispatching as the spec has it.  The
    call has handed one dispatch to [HandleInfer] and no callback has been
    invoked when it returns.  Whatever the caller and the engine do next
    (further inference calls, server constructions and status queries,
    completions in any order and with any terminal result),
    the callback on the holder of this request has been invoked not at all
    or once, and then with the caller's server and [userp] and the bundle
    made of this holder and of the response provider of this dispatch. *)
Theorem callback_at_most_once_after_return (ni : Engine) (server : ptr)
    (p p' : TrtServerRequestProvider (InferRequestHeader ni)) (complete_fn userp : ptr)
    (w0 w1 : World (E ni))
    (Hwf : well_formed w0)
    (Hscheduled :
       TRTSERVER_ServerInferAsync (Async.engine_of ni) server p complete_fn userp w0
       = ((None, p'), w1)) :
  exists backend irp rp,
    let d := dispatch_of w0 server complete_fn userp backend irp rp in
    let holder := length (request_status_store w0) in
    d_request_status d = holder /\ d_response_provider d = rp /\
    dispatches (events w1) = dispatches (events w0) ++ [d] /\
    callbacks (events w1) = callbacks (events w0) /\
    callbacks_of holder (events w1) = [] /\
    forall acts : list (Async.Action ni),
      let w := Async.run acts w1 in
      callbacks_of holder (events w) = [] \/
      callbacks_of holder (events w)
      = [Complete complete_fn server (mkTrtServerResponse holder rp) userp].
Proof.
  destruct (infers_effect (ni:=ni) server p complete_fn userp w0)
    as (e & stats & vs & Hf & Hvs & Hcases).
  rewrite Hscheduled in Hcases. simpl in Hcases.
  destruct Hcases as [[[? [=]] _] | (backend & irp & rp & _ & ->)].
  exists backend, irp, rp. intros d holder.
  destruct (accepted_in_flight w0 e stats vs (RequestStatus_new ni) server
              complete_fn userp backend irp rp Hwf Hf) as [Ht (_ & Hc & _)].
  fold d in Ht, Hc.
  split_and!; try done.
  - simpl. rewrite !dispatches_app, dispatches_step_verbs by done.
    by rewrite app_nil_r.
  - simpl. rewrite !callbacks_app, callbacks_calls. simpl. by rewrite !app_nil_r.
  - intros acts w.
    destruct (tracked_run _ acts _ Ht) as [_ [(_ & Hc' & _) | (_ & Hc' & _)]].
    + by left.
    + by right.
Qed.

Lemma callback_at_most_once_after_return_witness :
  let w1 := snd (TRTSERVER_ServerInferAsync (Async.engine_of Toy.ni) 0
                   (Toy.request "resnet" 4) 100 200 (initial_world 1)) in
  callbacks (events w1) = [] /\
  callbacks_of 0
    (events (Async.run (ni:=Toy.ni)
               [Async.Completes 0 (mkRequestStatus SUCCESS "") id;
                Async.Completes 0 (mkRequestStatus SUCCESS "") id] w1))
  = [Complete 100 0 (mkTrtServerResponse 0 30) 200].
Proof.
  intros w1.
  assert (TRTSERVER_ServerInferAsync (Async.engine_of Toy.ni) 0
            (Toy.request "resnet" 4) 100 200 (initial_world 1)
          = ((None, Toy.request "resnet" 4), w1)) as Hscheduled
    by (vm_compute; reflexivity).
  destruct (callback_at_most_once_after_return Toy.ni 0 (Toy.request "resnet" 4)
              (Toy.request "resnet" 4) 100 200 (initial_world 1) w1
              (initial_world_well_formed 1) Hscheduled)
    as (backend & irp & rp & _ & _ & _ & Hnone & _ & _).
  split; [exact Hnone | vm_compute; reflexivity].
Defined.

(** The bound of C2 is reached: when the engine completes the request
    with the terminal result [r], the callback is invoked, and the bundle
    it delivers reports [r]. *)
Lemma completion_invokes_callback (ni : Engine) (server : ptr)
    (p p' : TrtServerRequestProvider (InferRequestHeader ni)) (complete_fn userp : ptr)
    (w0 w1 : World (E ni)) (r : RequestStatus) (work : E ni -> E ni) :
  well_formed w0 ->
  TRTSERVER_ServerInferAsync (Async.engine_of ni) server p complete_fn userp w0
  = ((None, p'), w1) ->
  let w2 := Async.complete (length (pending w0)) r work w1 in
  let holder := length (request_status_store w0) in
  exists rp,
    callbacks_of holder (events w2)
    = [Complete complete_fn server (mkTrtServerResponse holder rp) userp] /\
    TRTSERVER_InferenceResponseStatus ni (mkTrtServerResponse holder rp) w2
    = Some (TrtServerError.Create (code r) (msg r)).
Proof.
  intros Hwf Hscheduled w2 holder.
  destruct (infers_effect (ni:=ni) server p complete_fn userp w0)
    as (e & stats & vs & Hf & Hvs & Hcases).
  rewrite Hscheduled in Hcases. cbn [fst snd] in Hcases.
  destruct Hcases as [[[? [=]] _] | (backend & irp & rp & _ & ->)].
  exists rp.
  destruct (accepted_in_flight w0 e stats vs (RequestStatus_new ni) server
              complete_fn userp backend irp rp Hwf Hf) as [_ (_ & Hc & _)].
  set (d := dispatch_of w0 server complete_fn userp backend irp rp) in *.
  assert (pending (accepted w0 e stats vs (RequestStatus_new ni) server d)
            !! length (pending w0) = Some d) as Hd
    by (simpl; apply list_lookup_middle; done).
  subst w2. rewrite (complete_present _ _ _ _ _ Hd).
  unfold TRTSERVER_InferenceResponseStatus, TrtServerResponse_Status.
  cbn [events request_status_store request_status_].
  change (k_request_status (d_OnComplete d)) with holder in Hc.
  rewrite callbacks_of_app, Hc, callbacks_of_callback.
  rewrite decide_True by done. split; [done|].
  change (d_request_status d) with holder. simpl. subst holder.
  by rewrite insert_new, list_lookup_middle.
Qed.

(** ** Asynchronous inference: the failed mark *)

Lemma OnCompleteInfer_clears (k : Continuation) {E} (w : World E) :
  k_infer_stats k < length (infer_stats_store w) ->
  marked_failed (k_infer_stats k) (snd (OnCompleteInfer k w)) = Some false.
Proof.
  intros Hk. destruct w as [e0 stats timers holders pend evs].
  unfold marked_failed; simpl. by apply marked_failed_cleared.
Qed.

(** C3, as the code has it: the statistics context of a call is marked
    failed before the first step.  Every early return leaves it marked,
    whatever the dispatch step of the engine is, and [HandleInfer] is
    entered with the context marked.  The continuation clears the mark
    without looking at the terminal result.  With the engine dispatching as
    the spec has it, the context is marked when the call returns, and from
    then on it is unmarked exactly when the call was scheduled and its
    callback has been invoked. *)
Theorem failed_mark_cleared_by_continuation_only (ni : Engine) (server : ptr)
    (p : TrtServerRequestProvider (InferRequestHeader ni)) (complete_fn userp : ptr)
    (w0 : World (E ni))
    (Hwf : well_formed w0) :
  let c := length (infer_stats_store w0) in
  let holder := length (request_status_store w0) in
  (forall s h vs e,
     scheduling ni server p (engine w0) (Rejected s) h vs e ->
     marked_failed c (snd (TRTSERVER_ServerInferAsync ni server p complete_fn userp w0))
     = Some true) /\
  (forall backend irp rp h vs e,
     scheduling ni server p (engine w0) (Accepted backend irp rp) h vs e ->
     exists w_d,
       snd (TRTSERVER_ServerInferAsync ni server p complete_fn userp w0)
       = HandleInfer ni server
           (dispatch_of w0 server complete_fn userp backend irp rp) w_d /\
       marked_failed c w_d = Some true) /\
  (forall (k : Continuation) (w : World (E ni)),
     k_infer_stats k < length (infer_stats_store w) ->
     marked_failed (k_infer_stats k) (snd (OnCompleteInfer k w)) = Some false) /\
  let (r, w1) :=
    TRTSERVER_ServerInferAsync (Async.engine_of ni) server p complete_fn userp w0 in
  marked_failed c w1 = Some true /\
  forall acts : list (Async.Action ni),
    let w := Async.run acts w1 in
    match marked_failed c w with
    | Some true => is_Some (fst r) \/ callbacks_of holder (events w) = []
    | Some false => fst r = None /\ length (callbacks_of holder (events w)) = 1
    | None => False
    end.
Proof.
  intros c holder. subst c holder. split_and!.
  - intros s h vs e Hs.
    destruct (InferAsync_rejected ni server p complete_fn userp w0 s h vs e Hs)
      as (stats & -> & Hf).
    apply (rejected_discarded (ni:=ni) w0 e stats vs Hwf Hf).
  - intros backend irp rp h vs e Hs.
    destruct (InferAsync_accepted ni server p complete_fn userp w0 _ _ _ h vs e Hs)
      as (stats & -> & Hf).
    eexists. split; [reflexivity|].
    unfold marked_failed; simpl. by rewrite list_lookup_middle, <- Hf.
  - intros k w. apply OnCompleteInfer_clears.
  - destruct (infers_effect (ni:=ni) server p complete_fn userp w0)
      as (e & stats & vs & Hf & Hvs & Hcases).
    destruct (TRTSERVER_ServerInferAsync (Async.engine_of ni) server p
                complete_fn userp w0) as [r w1].
    cbn [fst snd] in Hcases.
    destruct Hcases as [[Hr ->] | (backend & irp & rp & Hr & ->)].
    + pose proof (rejected_discarded (ni:=ni) w0 e stats vs Hwf Hf) as Hd.
      split; [apply Hd|]. intros acts w. subst w.
      destruct (discarded_run _ acts _ Hd) as (_ & _ & _ & Hm).
      rewrite Hm. by left.
    + destruct (accepted_in_flight w0 e stats vs (RequestStatus_new ni) server
                  complete_fn userp backend irp rp Hwf Hf) as [Ht (_ & _ & Hm)].
      split; [exact Hm|]. intros acts w. subst w.
      destruct (tracked_run _ acts _ Ht)
        as [_ [(_ & Hc' & Hm') | (_ & Hc' & Hm')]]; simpl in Hm', Hc';
        cbv zeta; rewrite Hm'.
      * by right.
      * split; [done|]. by rewrite Hc'.
Qed.

Lemma failed_mark_cleared_by_continuation_only_witness :
  marked_failed 0
    (snd (TRTSERVER_ServerInferAsync Toy.ni 0 (Toy.request "alexnet" 4) 100 200
            (initial_world 1)))
  = Some true.
Proof.
  destruct (failed_mark_cleared_by_continuation_only Toy.ni 0
              (Toy.request "alexnet" 4) 100 200 (initial_world 1)
              (initial_world_well_formed 1)) as (Hearly & _).
  apply (Hearly (mkStatus NOT_FOUND "no model available") 4%Z
           [V_GetInferenceBackend 0 "alexnet" (-1)] 1).
  apply (backend_resolution_fails Toy.ni 0 (Toy.request "alexnet" 4) 1
           (mkStatus NOT_FOUND "no model available") 0 1); [reflexivity | discriminate].
Defined.

(** The request is scheduled, the engine completes it with the terminal
    result [INTERNAL], the continuation runs: the bundle reports the
    failure and the context is no longer marked failed. *)
Lemma failed_mark_cleared_on_failed_completion :
  let w1 := snd (TRTSERVER_ServerInferAsync (Async.engine_of Toy.ni) 0
                   (Toy.request "resnet" 4) 100 200 (initial_world 1)) in
  let w2 := Async.complete 0 (mkRequestStatus INTERNAL "inference failed") id w1 in
  marked_failed 0 w1 = Some true /\
  callbacks (events w2) = [Complete 100 0 (mkTrtServerResponse 0 30) 200] /\
  TRTSERVER_InferenceResponseStatus Toy.ni (mkTrtServerResponse 0 30) w2
  = Some (Some (mkTrtServerError INTERNAL "inference failed")) /\
  marked_failed 0 w2 = Some false.
Proof. vm_compute. repeat split. Qed.


(** * Further properties of the facade *)

(** ** Error objects *)

(** X1: on the seven codes that its switch names, [TRTSERVER_ErrorCode]
    tells the engine's code: two error objects made by
    [TrtServerError::Create] from named codes and reading the same public
    code were made from the same code.  A code the switch does not name
    reads [TRTSERVER_ERROR_UNKNOWN], so that public code alone does not
    tell [UNKNOWN] from an unnamed code. *)
Theorem ErrorCode_tells_code (c1 c2 : RequestStatusCode) (m1 m2 : string)
    (e1 e2 : TrtServerError)
    (N1 : named_by_ErrorCode c1) (N2 : named_by_ErrorCode c2)
    (H1 : TrtServerError.Create c1 m1 = Some e1)
    (H2 : TrtServerError.Create c2 m2 = Some e2)
    (Hsame : TRTSERVER_ErrorCode e1 = TRTSERVER_ErrorCode e2) :
  c1 = c2 /\
  forall c m, ~ named_by_ErrorCode c ->
    TRTSERVER_ErrorCode (mkTrtServerError c m) = TRTSERVER_ERROR_UNKNOWN.
Proof.
  split.
  - pose proof (Create_cases c1 m1) as C1. rewrite H1 in C1. destruct C1 as (_ & ->).
    pose proof (Create_cases c2 m2) as C2. rewrite H2 in C2. destruct C2 as (_ & ->).
    destruct c1; try contradiction; destruct c2; try contradiction;
      first [reflexivity | discriminate Hsame].
  - intros c m Hc. destruct c; simpl in Hc; first [reflexivity | tauto].
Qed.

Lemma ErrorCode_tells_code_witness :
  NOT_FOUND = NOT_FOUND /\
  forall c m, ~ named_by_ErrorCode c ->
    TRTSERVER_ErrorCode (mkTrtServerError c m) = TRTSERVER_ERROR_UNKNOWN.
Proof.
  apply (ErrorCode_tells_code NOT_FOUND NOT_FOUND "no model available" "again"
           (mkTrtServerError NOT_FOUND "no model available")
           (mkTrtServerError NOT_FOUND "again") I I); reflexivity.
Defined.

(** ** Request descriptors, continued *)

Section MoreSetInputData.

Context {H : Type}.
Implicit Type p : TrtServerRequestProvider H.

Lemma SetInputData_fragments_other p name other b n :
  other <> name ->
  fragments (SetInputData name b n p) other = fragments p other.
Proof.
  intros Hne. unfold fragments, SetInputData; simpl.
  by rewrite lookup_insert_ne.
Qed.

Lemma set_inputs_cons p c calls :
  set_inputs (c :: calls) p = set_inputs calls (SetInputData c.1 c.2.1 c.2.2 p).
Proof. reflexivity. Qed.

Lemma fragments_set_inputs (calls : list (string * Fragment)) p name :
  fragments (set_inputs calls p) name
  = fragments p name ++ (snd <$> filter (fun c => c.1 = name) calls).
Proof.
  revert p. induction calls as [|[n [b s]] calls IH]; intros p.
  - simpl. by rewrite app_nil_r.
  - rewrite set_inputs_cons, IH, filter_cons. simpl.
    destruct (decide (n = name)) as [->|Hne].
    + rewrite SetInputData_fragments. simpl. by rewrite <- app_assoc.
    + by rewrite SetInputData_fragments_other.
Qed.

(** X2: after any sequence of [setInputData] calls, an input holds the
    fragments it held before followed by the fragments of the calls made
    under its name, in the order of the calls; calls under other names do
    not show in it.  The inputs of the descriptor are those it had and
    those named by the calls. *)
Theorem set_inputs_fragments (calls : list (string * Fragment)) p :
  (forall name,
     fragments (set_inputs calls p) name
     = fragments p name ++ (snd <$> filter (fun c => c.1 = name) calls)) /\
  dom (input_map_ (set_inputs calls p))
  = dom (input_map_ p) ∪ list_to_set (fst <$> calls).
Proof.
  split; [intros name; apply fragments_set_inputs|].
  revert p. induction calls as [|[n [b s]] calls IH]; intros p.
  - simpl. by rewrite union_empty_r_L.
  - rewrite set_inputs_cons, IH. unfold SetInputData; simpl.
    rewrite dom_insert_L, (comm_L (∪) {[n]}), <- (assoc_L (∪)). done.
Qed.

(** X3: calls of [setInputData] under different names commute: the
    descriptor is the same whichever is made first. *)
Theorem SetInputData_commutes p n1 b1 s1 n2 b2 s2 (Hdiff : n1 <> n2) :
  SetInputData n1 b1 s1 (SetInputData n2 b2 s2 p)
  = SetInputData n2 b2 s2 (SetInputData n1 b1 s1 p).
Proof.
  unfold SetInputData; simpl.
  rewrite !lookup_insert_ne by done.
  f_equal. by apply insert_insert_ne.
Qed.

(** X4: [setInputData] never removes an input and adds at most the one it
    names: the names of the input map are those from before and the name
    given, and the map has one entry more exactly when the name is new. *)
Theorem SetInputData_names p name b n :
  dom (input_map_ (SetInputData name b n p)) = {[name]} ∪ dom (input_map_ p) /\
  size (input_map_ (SetInputData name b n p))
  = match input_map_ p !! name with
    | Some _ => size (input_map_ p)
    | None => S (size (input_map_ p))
    end.
Proof.
  unfold SetInputData; simpl. split; [apply dom_insert_L|].
  destruct (input_map_ p !! name) as [s|] eqn:Hl.
  - rewrite <- (insert_id (input_map_ p) name s Hl) at 2.
    rewrite <- (insert_delete_eq (input_map_ p) name s) at 1.
    rewrite <- (insert_delete_eq (input_map_ p) name) .
    rewrite !map_size_insert_None by apply lookup_delete_eq. done.
  - by apply map_size_insert_None.
Qed.

End MoreSetInputData.

Lemma SetInputData_commutes_witness :
  SetInputData "a" 1 2 (SetInputData "b" 3 4 (TrtServerRequestProvider_new "m" 1 tt))
  = SetInputData "b" 3 4 (SetInputData "a" 1 2 (TrtServerRequestProvider_new "m" 1 tt)).
Proof.
  apply (SetInputData_commutes (TrtServerRequestProvider_new "m" 1 tt)
           "a" 1%Z 2%Z "b" 3%Z 4%Z).
  discriminate.
Defined.

(** X5: when the header bytes parse, creating a request descriptor returns
    null and puts in the slot, whatever it held, a descriptor with the
    given model name and version, the parsed header and no input; the world
    is left as it was.  After any sequence of [setInputData] calls on that
    descriptor, each input holds exactly the fragments given under its
    name, in the order of the calls. *)
Theorem ProviderNew_then_set_inputs (ni : Engine) (bytes : list byte)
    (header : InferRequestHeader ni)
    (Hparses : ParseFromArray ni bytes = (true, header))
    (slot : option (TrtServerRequestProvider (InferRequestHeader ni)))
    (model_name : string) (model_version : Z) (w : World (E ni)) :
  exists p,
    TRTSERVER_InferenceRequestProviderNew ni slot model_name model_version bytes w
    = ((None, Some p), w) /\
    (model_name_ p, model_version_ p, request_header_ p)
    = (model_name, model_version, header) /\
    input_map_ p = ∅ /\
    forall calls name,
      fragments (set_inputs calls p) name
      = snd <$> filter (fun c => c.1 = name) calls.
Proof.
  eexists. split_and!.
  - unfold TRTSERVER_InferenceRequestProviderNew. rewrite Hparses. reflexivity.
  - reflexivity.
  - reflexivity.
  - intros calls name. rewrite fragments_set_inputs. reflexivity.
Qed.

Lemma ProviderNew_then_set_inputs_witness :
  exists p,
    TRTSERVER_InferenceRequestProviderNew Toy.ni None "resnet" 1 [x04]%byte
      (initial_world 0)
    = ((None, Some p), initial_world 0) /\
    fragments (set_inputs [("input0", (4096, 16)); ("aux", (0, 8));
                           ("input0", (8192, 16))]%Z p) "input0"
    = [(4096, 16); (8192, 16)]%Z.
Proof.
  destruct (ProviderNew_then_set_inputs Toy.ni [x04]%byte 4%Z eq_refl None
              "resnet" 1%Z (initial_world 0)) as (p & Hnew & _ & _ & Hfr).
  exists p. split; [exact Hnew|]. rewrite Hfr. reflexivity.
Defined.

(** ** Asynchronous inference, continued *)

(** X6: [TRTSERVER_ServerInferAsync] changes nothing of the caller's
    descriptor but the request header: model name, model version and
    input map come back as they were, on every path and with any engine;
    and when backend resolution fails the header is untouched too. *)
Theorem InferAsync_descriptor_frame (ni : Engine) (server : ptr)
    (p : TrtServerRequestProvider (InferRequestHeader ni)) (complete_fn userp : ptr)
    (w : World (E ni)) :
  let p' := snd (fst (TRTSERVER_ServerInferAsync ni server p complete_fn userp w)) in
  model_name_ p' = model_name_ p /\
  model_version_ p' = model_version_ p /\
  input_map_ p' = input_map_ p /\
  (forall s backend e1,
     GetInferenceBackend ni server (model_name_ p) (model_version_ p) (engine w)
     = ((s, backend), e1) ->
     Code s <> SUCCESS -> p' = p).
Proof.
  destruct (scheduling_total ni server p (engine w)) as (o & h & vs & e & Hs).
  assert (snd (fst (TRTSERVER_ServerInferAsync ni server p complete_fn userp w))
          = set_request_header h p) as Hp'.
  { destruct o as [s | backend irp rp].
    - by destruct (InferAsync_rejected ni server p complete_fn userp w s h vs e Hs)
        as (stats & -> & _).
    - by destruct (InferAsync_accepted ni server p complete_fn userp w _ _ _ h vs e Hs)
        as (stats & -> & _). }
  cbv zeta. rewrite Hp'. split_and!; try done.
  intros s backend e1 Hget Hne.
  inversion Hs; subst; try congruence.
  apply set_request_header_same.
Qed.

Lemma InferAsync_descriptor_frame_witness :
  snd (fst (TRTSERVER_ServerInferAsync Toy.ni 0 (Toy.request "alexnet" 4) 100 200
              (initial_world 1)))
  = Toy.request "alexnet" 4.
Proof.
  destruct (InferAsync_descriptor_frame Toy.ni 0 (Toy.request "alexnet" 4) 100 200
              (initial_world 1)) as (_ & _ & _ & Hsame).
  apply (Hsame (mkStatus NOT_FOUND "no model available") 0 1);
    [reflexivity | discriminate].
Defined.

(** X7: a call of [TRTSERVER_ServerInferAsync] that returns an error, with
    any engine, has made no terminal-result holder and has touched no
    statistics context, timer or holder that was there before the call:
    what it set, it set on the context and the timer it made itself.
    (Those two are dropped at the return; nothing is said of them here.) *)
Theorem InferAsync_rejected_frame (ni : Engine) (server : ptr)
    (p : TrtServerRequestProvider (InferRequestHeader ni)) (complete_fn userp : ptr)
    (w : World (E ni)) (s : Status) (h : InferRequestHeader ni) (vs : list Verb)
    (e : E ni)
    (Hfails : scheduling ni server p (engine w) (Rejected s) h vs e) :
  let w' := snd (TRTSERVER_ServerInferAsync ni server p complete_fn userp w) in
  request_status_store w' = request_status_store w /\
  (forall c, c < length (infer_stats_store w) ->
             infer_stats_store w' !! c = infer_stats_store w !! c) /\
  (forall t, t < length (timer_store w) ->
             timer_store w' !! t = timer_store w !! t) /\
  pending w' = pending w /\
  engine w' = e.
Proof.
  destruct w as [e0 stats timers holders pend evs]. simpl in Hfails.
  inversion Hfails; subst; clear Hfails; cbv zeta;
    run_infer; repeat step; simpl;
    (split_and!; [reflexivity | | | reflexivity | reflexivity]);
    intros i Hi; by rewrite lookup_app_l.
Qed.

Lemma InferAsync_rejected_frame_witness :
  request_status_store
    (snd (TRTSERVER_ServerInferAsync Toy.ni 0 (Toy.request "alexnet" 4) 100 200
            Toy.two_results))
  = request_status_store Toy.two_results.
Proof.
  destruct (InferAsync_rejected_frame Toy.ni 0 (Toy.request "alexnet" 4) 100 200
              Toy.two_results (mkStatus NOT_FOUND "no model available") 4%Z
              [V_GetInferenceBackend 0 "alexnet" (-1)] 0)
    as (Hholders & _).
  - apply (backend_resolution_fails Toy.ni 0 (Toy.request "alexnet" 4) 0
             (mkStatus NOT_FOUND "no model available") 0 0);
      [reflexivity | discriminate].
  - exact Hholders.
Defined.

(** X8: when the four steps succeed, with any engine, [HandleInfer] is
    entered in a world in which nothing that was in the stores before has
    changed and which has one new statistics context, one started timer
    and one new, default-constructed holder.  The context records the model
    name and version of the descriptor, the batch size of the header as
    the caller gave it (it is read before the header is normalized), the
    metric reporter of the resolved backend, the timer and the failed mark.
    The dispatch and its continuation name the same context, holder and
    response provider. *)
Theorem InferAsync_hands_over (ni : Engine) (server : ptr)
    (p : TrtServerRequestProvider (InferRequestHeader ni)) (complete_fn userp : ptr)
    (w : World (E ni)) (backend irp rp : ptr) (h : InferRequestHeader ni)
    (vs : list Verb) (e : E ni)
    (Hsucceed : scheduling ni server p (engine w) (Accepted backend irp rp) h vs e) :
  exists d w_d,
    snd (TRTSERVER_ServerInferAsync ni server p complete_fn userp w)
    = HandleInfer ni server d w_d /\
    infer_stats_store w_d
    = infer_stats_store w ++
      [mkModelInferStats (StatusManager ni server (engine w)) (model_name_ p)
         (model_version_ p) (batch_size ni (request_header_ p)) true
         (Some (MetricReporter ni backend
                  (snd (GetInferenceBackend ni server (model_name_ p)
                          (model_version_ p) (engine w)))))
         (Some (length (timer_store w)))] /\
    timer_store w_d = timer_store w ++ [true] /\
    request_status_store w_d = request_status_store w ++ [RequestStatus_new ni] /\
    pending w_d = pending w /\
    engine w_d = e /\
    d_infer_stats d = length (infer_stats_store w) /\
    d_request_status d = length (request_status_store w) /\
    (d_backend d, d_request_provider d, d_response_provider d) = (backend, irp, rp) /\
    d_OnComplete d
    = mkContinuation (d_infer_stats d) (length (timer_store w)) (d_request_status d)
        (d_response_provider d) server complete_fn userp.
Proof.
  destruct w as [e0 stats timers holders pend evs]. simpl in Hsucceed.
  inversion Hsucceed; subst; clear Hsucceed.
  run_infer. repeat step.
  eexists _, _. split; [reflexivity|]. split_and!; reflexivity.
Qed.

Lemma InferAsync_hands_over_witness :
  exists d w_d,
    snd (TRTSERVER_ServerInferAsync Toy.ni 0 (Toy.request "resnet" 4) 100 200
           (initial_world 1))
    = Toy.HandleInfer 0 d w_d /\
    infer_stats_store w_d
    = [mkModelInferStats 1 "resnet" (-1) 4 true (Some 8) (Some 0)].
Proof.
  destruct (InferAsync_hands_over Toy.ni 0 (Toy.request "resnet" 4) 100 200
              (initial_world 1) 7 20 30 4%Z _ 1 Toy_request_accepted)
    as (d & w_d & Hrun & Hstats & _).
  exists d, w_d. split; [exact Hrun | exact Hstats].
Defined.

(** X9: each run of the continuation invokes the caller's callback once,
    with the captured server and [userp] and a bundle that names the
    captured holder and response provider.  It writes no holder, leaves the
    engine and the pending requests alone, changes no statistics context
    but its own, and of its own nothing but the failed mark; it stops no
    timer but its own. *)
Theorem OnCompleteInfer_effect {E} (k : Continuation) (w : World E) :
  let w' := snd (OnCompleteInfer k w) in
  events w'
  = events w ++
    [Complete (k_complete_fn k) (k_server k)
       (mkTrtServerResponse (k_request_status k) (k_infer_response_provider k))
       (k_userp k)] /\
  length (callbacks (events w')) = S (length (callbacks (events w))) /\
  request_status_store w' = request_status_store w /\
  engine w' = engine w /\
  pending w' = pending w /\
  infer_stats_store w' !! k_infer_stats k
  = ModelInferStats.SetFailed false <$> infer_stats_store w !! k_infer_stats k /\
  (forall c, c <> k_infer_stats k ->
             infer_stats_store w' !! c = infer_stats_store w !! c) /\
  (forall t, t <> k_timer k -> timer_store w' !! t = timer_store w !! t).
Proof.
  destruct w as [e0 stats timers holders pend evs]. simpl. split_and!; try done.
  - rewrite callbacks_app, length_app. simpl. lia.
  - apply list_lookup_alter_eq.
  - intros c Hc. by apply list_lookup_alter_ne.
  - intros t Ht. by apply list_lookup_insert_ne.
Qed.

Lemma OnCompleteInfer_effect_witness :
  infer_stats_store
    (snd (OnCompleteInfer (mkContinuation 1 0 0 30 0 100 200)
            (mkWorld 0 [mkModelInferStats 1 "a" 1 1 true None None;
                        mkModelInferStats 1 "b" 2 1 true None None]
               [true; true] [mkRequestStatus SUCCESS ""] [] []))) !! 0
  = Some (mkModelInferStats 1 "a" 1 1 true None None).
Proof.
  destruct (OnCompleteInfer_effect (mkContinuation 1 0 0 30 0 100 200)
              (mkWorld 0 [mkModelInferStats 1 "a" 1 1 true None None;
                          mkModelInferStats 1 "b" 2 1 true None None]
                 [true; true] [mkRequestStatus SUCCESS ""] [] []))
    as (_ & _ & _ & _ & _ & _ & Hothers & _).
  apply (Hothers 0). simpl. lia.
Defined.

(** X10: a bundle is an alias of its holder.  When the continuation runs
    in a world whose holder stores the terminal result [r], the bundle it
    delivers reports [r] through [status()]; and should the holder be
    written again, the same bundle reports what is written, while bundles
    on other holders report what they reported before. *)
Theorem bundle_reports_holder (ni : Engine) (k : Continuation) (w : World (E ni))
    (r r' : RequestStatus)
    (Hholds : request_status_store w !! k_request_status k = Some r) :
  let w' := snd (OnCompleteInfer k w) in
  let bundle := mkTrtServerResponse (k_request_status k) (k_infer_response_provider k) in
  let w'' := set_request_status_store
               (<[k_request_status k := r']> (request_status_store w')) w' in
  last (events w')
  = Some (Complete (k_complete_fn k) (k_server k) bundle (k_userp k)) /\
  TRTSERVER_InferenceResponseStatus ni bundle w'
  = Some (TrtServerError.Create (code r) (msg r)) /\
  TRTSERVER_InferenceResponseStatus ni bundle w''
  = Some (TrtServerError.Create (code r') (msg r')) /\
  forall other,
    request_status_ other <> k_request_status k ->
    TRTSERVER_InferenceResponseStatus ni other w''
    = TRTSERVER_InferenceResponseStatus ni other w'.
Proof.
  destruct w as [e0 stats timers holders pend evs]. simpl in *.
  unfold TRTSERVER_InferenceResponseStatus, TrtServerResponse_Status. simpl.
  split_and!.
  - apply last_snoc.
  - by rewrite Hholds.
  - rewrite list_lookup_insert_eq; [done|]. by eapply lookup_lt_Some.
  - intros other Hother. by rewrite list_lookup_insert_ne.
Qed.

Lemma bundle_reports_holder_witness :
  TRTSERVER_InferenceResponseStatus Toy.ni (mkTrtServerResponse 0 30)
    (snd (OnCompleteInfer (mkContinuation 0 0 0 30 0 100 200) Toy.two_results))
  = Some (Some (mkTrtServerError INTERNAL "inference failed")).
Proof.
  destruct (bundle_reports_holder Toy.ni (mkContinuation 0 0 0 30 0 100 200)
              Toy.two_results (mkRequestStatus INTERNAL "inference failed")
              (mkRequestStatus SUCCESS "") eq_refl) as (_ & Hstatus & _).
  exact Hstatus.
Defined.

(** ** The rest of the API *)

(** X12: the payload of a successful status query flattens to the bytes of
    the structured status the engine returned, and [byte_size] is their
    number, in any world.  The payload of [header()] on a bundle whose
    holder stores [SUCCESS] flattens likewise to the bytes of the response
    header of the bundle's provider.  [TRTSERVER_ProtobufSerialize] itself
    always returns null. *)
Theorem payloads_serialize_the_message (ni : Engine)
    (server : ptr) (status : option TrtServerProtobuf) (model_name : string)
    (response : TrtServerResponse) (header : option TrtServerProtobuf)
    (w : World (E ni)) :
  (forall request_status server_status e1,
     HandleStatus ni server model_name (engine w)
     = ((request_status, server_status), e1) ->
     code request_status = SUCCESS ->
     exists payload,
       fst (TRTSERVER_ServerModelStatus ni server status model_name w)
       = (None, Some payload) /\
       TRTSERVER_ProtobufSerialize payload
       = (None, (SerializeToString server_status,
                 length (SerializeToString server_status)))) /\
  (forall terminal,
     request_status_store w !! request_status_ response = Some terminal ->
     code terminal = SUCCESS ->
     exists payload,
       TRTSERVER_InferenceResponseHeader ni response header w
       = Some (None, Some payload) /\
       TRTSERVER_ProtobufSerialize payload
       = (None, (SerializeToString
                   (ResponseHeader ni (response_provider_ response) (engine w)),
                 length (SerializeToString
                           (ResponseHeader ni (response_provider_ response)
                              (engine w)))))) /\
  forall payload, fst (TRTSERVER_ProtobufSerialize payload) = None.
Proof.
  split_and!.
  - intros request_status server_status e1 Hquery Hok.
    destruct w as [e0 stats timers holders pend evs]; simpl in *.
    unfold TRTSERVER_ServerModelStatus. run_api. rewrite Hquery; simpl.
    rewrite Hok; simpl. eexists. split; reflexivity.
  - intros terminal Hheld Hdone.
    unfold TRTSERVER_InferenceResponseHeader, TrtServerResponse_Status,
      TrtServerResponse_Header, TrtServerError.Create_status.
    rewrite Hheld; simpl. rewrite Hdone; simpl. eexists. split; reflexivity.
  - reflexivity.
Qed.

Lemma payloads_serialize_the_message_witness :
  (exists payload,
     fst (TRTSERVER_ServerModelStatus Toy.ni 0 None "resnet" (initial_world 1))
     = (None, Some payload) /\
     TRTSERVER_ProtobufSerialize payload = (None, ([x01]%byte, 1))) /\
  (exists payload,
     TRTSERVER_InferenceResponseHeader Toy.ni (mkTrtServerResponse 1 30) None
       Toy.two_results
     = Some (None, Some payload) /\
     TRTSERVER_ProtobufSerialize payload = (None, ([x2a]%byte, 1))).
Proof.
  split.
  - destruct (payloads_serialize_the_message Toy.ni 0 None "resnet"
                (mkTrtServerResponse 1 30) None (initial_world 1)) as (Hstatus & _).
    apply (Hstatus (mkRequestStatus SUCCESS "") [x01]%byte 1); reflexivity.
  - destruct (payloads_serialize_the_message Toy.ni 0 None "resnet"
                (mkTrtServerResponse 1 30) None Toy.two_results) as (_ & Hheader & _).
    apply (Hheader (mkRequestStatus SUCCESS "")); reflexivity.
Defined.

Lemma deleted_servers_app (evs evs' : list Event) :
  deleted_servers (evs ++ evs') = deleted_servers evs ++ deleted_servers evs'.
Proof. apply omap_app. Qed.

Lemma store_paths_app (evs evs' : list Event) :
  store_paths (evs ++ evs') = store_paths evs ++ store_paths evs'.
Proof. apply omap_app. Qed.

(** X13: [TRTSERVER_ServerDelete] always returns null.  On a null handle
    it does nothing at all; on a server it has the engine stop first and
    deletes it then, once. *)
Theorem ServerDelete_stops_then_deletes (ni : Engine) (more : EngineMore ni)
    (server : option ptr) (w : World (E ni)) :
  let (r, w') := TRTSERVER_ServerDelete more server w in
  r = None /\
  match server with
  | None => w' = w
  | Some lserver =>
      engine w'
      = snd (InferenceServer_delete ni lserver (Stop more lserver (engine w))) /\
      deleted_servers (events w') = deleted_servers (events w) ++ [lserver]
  end.
Proof.
  destruct w as [e0 stats timers holders pend evs].
  destruct server as [l|]; [|done].
  unfold TRTSERVER_ServerDelete. run_api.
  destruct (InferenceServer_delete ni l (Stop more l e0)) as [[] e1]; simpl.
  by rewrite deleted_servers_app.
Qed.

(** X14: a caller that starts from a null slot, constructs a server and
    then deletes what the slot holds has the constructed engine deleted
    exactly once, whether initialization succeeded (the delete is that of
    [TRTSERVER_ServerDelete]) or failed (it is that of
    [TRTSERVER_ServerNew], and the slot is still null). *)
Theorem ServerNew_then_Delete_deletes_once (ni : Engine) (more : EngineMore ni)
    (options : TrtServerOptions) (w : World (E ni)) :
  let r := TRTSERVER_ServerNew ni None options w in
  let w' := snd (TRTSERVER_ServerDelete more (snd (fst r)) (snd r)) in
  deleted_servers (events w')
  = deleted_servers (events w) ++ [fst (InferenceServer_new ni (engine w))].
Proof.
  destruct w as [e0 stats timers holders pend evs].
  unfold TRTSERVER_ServerNew, TrtServerOptions.ModelRepositoryPath. run_api.
  destruct (InferenceServer_new ni e0) as [l e1]; simpl.
  destruct (SetModelStorePath ni l (repo_path_ options) e1) as [[] e2]; simpl.
  destruct (Init ni l e2) as [[|] e3]; simpl.
  - unfold TRTSERVER_ServerDelete. run_api.
    destruct (InferenceServer_delete ni l (Stop more l e3)) as [[] e4]; simpl.
    rewrite !deleted_servers_app. simpl. by rewrite !app_nil_r.
  - destruct (InferenceServer_delete ni l e3) as [[] e4]; simpl.
    rewrite !deleted_servers_app. simpl. by rewrite !app_nil_r.
Qed.

(** X15: a new options value holds the empty path, and the path given to
    the engine at server construction is the one set last: of two paths set
    one after the other, only the second reaches [SetModelStorePath].
    Setting a path always returns null. *)
Theorem options_last_path_reaches_engine (ni : Engine)
    (slot : option TrtServerOptions) (path1 path2 : string)
    (server : option ptr) (w : World (E ni)) :
  exists fresh,
    TRTSERVER_ServerOptionsNew slot = (None, Some fresh) /\
    store_paths (events (snd (TRTSERVER_ServerNew ni server fresh w)))
    = store_paths (events w) ++ [""] /\
    let r1 := TRTSERVER_ServerOptionsSetModelRepositoryPath fresh path1 in
    let r2 := TRTSERVER_ServerOptionsSetModelRepositoryPath (snd r1) path2 in
    fst r1 = None /\ fst r2 = None /\
    store_paths (events (snd (TRTSERVER_ServerNew ni server (snd r2) w)))
    = store_paths (events w) ++ [path2].
Proof.
  assert (forall options,
            store_paths (events (snd (TRTSERVER_ServerNew ni server options w)))
            = store_paths (events w) ++ [repo_path_ options]) as Hpath.
  { intros options. destruct w as [e0 stats timers holders pend evs].
    unfold TRTSERVER_ServerNew, TrtServerOptions.ModelRepositoryPath. run_api.
    destruct (InferenceServer_new ni e0) as [l e1]; simpl.
    destruct (SetModelStorePath ni l (repo_path_ options) e1) as [[] e2]; simpl.
    destruct (Init ni l e2) as [[|] e3]; simpl.
    - rewrite !store_paths_app. simpl. by rewrite !app_nil_r.
    - destruct (InferenceServer_delete ni l e3) as [[] e4]; simpl.
      rewrite !store_paths_app. simpl. by rewrite !app_nil_r. }
  eexists. split; [reflexivity|]. split; [apply Hpath|].
  simpl. split_and!; try done; apply Hpath.
Qed.

(** The memory allocator functions succeed without doing anything:
    [TRTSERVER_MemoryAllocatorNew] returns null and leaves the caller's
    slot as it was, so no allocator comes out of it, whatever the two
    functions given; [TRTSERVER_MemoryAllocatorDelete] of what the slot
    then holds returns null as well. *)
Theorem MemoryAllocator_is_a_stub (allocator : option ptr) (alloc_fn delete_fn : ptr) :
  let r := TRTSERVER_MemoryAllocatorNew allocator alloc_fn delete_fn in
  fst r = None /\ snd r = allocator /\
  TRTSERVER_MemoryAllocatorDelete (snd r) = None.
Proof. by repeat split. Qed.

(** X16: [outputData] goes by the status of the response provider alone.
    It returns null when the provider reports [SUCCESS] and the error of
    the reported code and message otherwise, and hands back the pointer and
    size as the provider left them in both cases.  It never looks at the
    terminal result: the answer is the same whatever the holders store. *)
Theorem OutputData_goes_by_provider (ni : Engine) (more : EngineMore ni)
    (response : TrtServerResponse) (name : string) (out out' : Fragment)
    (w : World (E ni)) (s : Status) (e1 : E ni)
    (Hprovider : OutputBufferContents more (response_provider_ response) name out
                   (engine w) = ((s, out'), e1)) :
  fst (TRTSERVER_InferenceResponseOutputData more response name out w)
  = (if decide (Code s = SUCCESS) then None
     else Some (mkTrtServerError (Code s) (Message s)), out') /\
  engine (snd (TRTSERVER_InferenceResponseOutputData more response name out w)) = e1 /\
  forall holders,
    fst (TRTSERVER_InferenceResponseOutputData more response name out
           (set_request_status_store holders w))
    = fst (TRTSERVER_InferenceResponseOutputData more response name out w).
Proof.
  destruct w as [e0 stats timers holders0 pend evs]; simpl in *.
  unfold TRTSERVER_InferenceResponseOutputData, TrtServerResponse_OutputData,
    call_unrecorded. run_api. rewrite Hprovider; simpl.
  destruct (decide (Code s = SUCCESS)) as [Hs|Hs]; simpl.
  - by repeat split.
  - rewrite Create_failure by done. by repeat split.
Qed.

Lemma OutputData_goes_by_provider_witness :
  fst (TRTSERVER_InferenceResponseOutputData ToyMore.more (mkTrtServerResponse 0 30)
         "prob" (0, 0)%Z Toy.two_results)
  = (None, (8192, 40)%Z).
Proof.
  destruct (OutputData_goes_by_provider Toy.ni ToyMore.more (mkTrtServerResponse 0 30)
              "prob" (0, 0)%Z (8192, 40)%Z Toy.two_results (mkStatus SUCCESS "") 0
              eq_refl) as (Hout & _).
  exact Hout.
Defined.

(** X17: the liveness and readiness queries ask the engine's health check
    with the modes [live] and [ready].  Each returns null exactly when the
    health check reports [SUCCESS], and otherwise the error of the reported
    code and message; the flag handed back is the one the health check
    left, on failure too. *)
Theorem health_queries_translate (ni : Engine) (more : EngineMore ni)
    (server : ptr) (flag flag' : bool) (mode : string) (w : World (E ni))
    (rs : RequestStatus) (e1 : E ni)
    (Hmode : mode = "live" \/ mode = "ready")
    (Hhealth : HandleHealth more server mode flag (engine w) = ((rs, flag'), e1)) :
  let r := if decide (mode = "live")
           then TRTSERVER_ServerIsLive more server flag w
           else TRTSERVER_ServerIsReady more server flag w in
  snd (fst r) = flag' /\
  engine (snd r) = e1 /\
  (fst (fst r) = None <-> code rs = SUCCESS) /\
  (code rs <> SUCCESS ->
   fst (fst r) = Some (mkTrtServerError (code rs) (msg rs))).
Proof.
  destruct w as [e0 stats timers holders pend evs]; simpl in *.
  assert (TrtServerError.Create (code rs) (msg rs) = None <-> code rs = SUCCESS)
    as Hiff.
  { pose proof (Create_cases (code rs) (msg rs)) as Hc.
    destruct (TrtServerError.Create _ _); [|done]. destruct Hc. split; done. }
  destruct Hmode as [-> | ->]; simpl;
    unfold TRTSERVER_ServerIsLive, TRTSERVER_ServerIsReady, call_unrecorded;
    run_api; rewrite Hhealth; simpl; split_and!; try done;
    intros Hne; by apply Create_failure.
Qed.

Lemma health_queries_translate_witness :
  snd (fst (TRTSERVER_ServerIsReady ToyMore.more 0 true Toy.two_results)) = false.
Proof.
  destruct (health_queries_translate Toy.ni ToyMore.more 0 true false "ready"
              Toy.two_results (mkRequestStatus SUCCESS "") 0
              (or_intror eq_refl) eq_refl) as (Hflag & _).
  exact Hflag.
Defined.

(** X18: with any engine, [TRTSERVER_ServerInferAsync] returns null
    exactly when backend resolution, header normalization and the two
    provider constructions all report [SUCCESS]; in every other call it
    returns an error whose code is not [SUCCESS]. *)
Theorem InferAsync_null_iff_steps_succeed (ni : Engine) (server : ptr)
    (p : TrtServerRequestProvider (InferRequestHeader ni)) (complete_fn userp : ptr)
    (w : World (E ni)) :
  let r := fst (fst (TRTSERVER_ServerInferAsync ni server p complete_fn userp w)) in
  (r = None <->
   exists backend irp rp h vs e,
     scheduling ni server p (engine w) (Accepted backend irp rp) h vs e) /\
  (forall err, r = Some err ->
     TrtServerError.Code err <> SUCCESS /\
     exists s h vs e,
       scheduling ni server p (engine w) (Rejected s) h vs e /\
       err = mkTrtServerError (Code s) (Message s)).
Proof.
  cbv zeta.
  destruct (scheduling_total ni server p (engine w)) as (o & h & vs & e & Hs).
  destruct o as [s | backend irp rp].
  - destruct (InferAsync_rejected ni server p complete_fn userp w s h vs e Hs)
      as (stats & Hr & _).
    assert (Code s <> SUCCESS) as Hne by (inversion Hs; done).
    rewrite Hr. simpl. split.
    + split; [done|]. intros (b & irp & rp & h' & vs' & e' & Hs').
      destruct (InferAsync_accepted ni server p complete_fn userp w _ _ _ _ _ _ Hs')
        as (stats' & Hr' & _).
      rewrite Hr in Hr'. discriminate Hr'.
    + intros err [= <-]. split; [done|]. by exists s, h, vs, e.
  - destruct (InferAsync_accepted ni server p complete_fn userp w _ _ _ h vs e Hs)
      as (stats & Hr & _).
    rewrite Hr. simpl. split; [|done].
    split; [|done]. intros _. by exists backend, irp, rp, h, vs, e.
Qed.

Lemma InferAsync_null_iff_steps_succeed_witness :
  fst (fst (TRTSERVER_ServerInferAsync Toy.ni 0 (Toy.request "resnet" 4) 100 200
              (initial_world 1))) = None.
Proof.
  destruct (InferAsync_null_iff_steps_succeed Toy.ni 0 (Toy.request "resnet" 4)
              100 200 (initial_world 1)) as [[_ Hnull] _].
  apply Hnull. exists 7, 20, 30, 4%Z. eexists _, 1. exact Toy_request_accepted.
Defined.
